(** * msgraph-py: token cache, paged device queries and LAPS passwords

    A shallow embedding of [msgraph/core.py] and [msgraph/devices.py].

    The Python functions talk to the outside world through three
    channels: the process-wide dictionary [_token_cache], the wall clock
    ([time()]) and HTTP requests sent with the [requests] library.  The
    embedding threads a [world] (cache, log of requests sent, number of
    clock readings) through every function and reads the answers of the
    outside from an [env] (clock readings, the server's responses, the
    client credentials).  Python exceptions are the [Raise] outcome. *)

From Stdlib Require Import ZArith QArith String Ascii List Bool Lia DecimalString.
From stdpp Require Import base option list gmap strings.

Open Scope string_scope.
Open Scope Z_scope.

(** ** Python values *)

(** The values the code handles: what [response.json()] decodes to, and
    what the functions store and return.  A dictionary keeps its items
    in insertion order.  A [str] is held as its UTF-8 bytes.  A finite
    [float] is held as the rational number it is; [VInf] and [VNaN] are
    the floats that are not finite. *)
Unset Elimination Schemes.
Inductive value : Type :=
| VNone
| VBool (b : bool)
| VInt (z : Z)
| VFloat (q : Q)
| VStr (s : string)
| VList (l : list value)
| VDict (items : list (string * value))
| VInf (negative : bool)
| VNaN.
Set Elimination Schemes.

Inductive exn : Type :=
| ValueError (msg : string)
| ConnectionError (msg : string)
| JSONDecodeError
| KeyError (key : string)
| IndexError
| TypeError
| AttributeError
| BinasciiError
| UnicodeDecodeError
| OverflowError.

Inductive outcome (A : Type) : Type :=
| Ret (a : A)
| Raise (e : exn).
Arguments Ret {A} a.
Arguments Raise {A} e.

(** Truth value of an object, as [if x:] and [x or y] test it. *)
Definition truthy (v : value) : bool :=
  match v with
  | VNone => false
  | VBool b => b
  | VInt z => negb (z =? 0)
  | VFloat q => negb (Qeq_bool q 0)
  | VStr s => negb (String.eqb s EmptyString)
  | VList l => match l with [] => false | _ => true end
  | VDict d => match d with [] => false | _ => true end
  | VInf _ => true
  | VNaN => true
  end.

(** The same for an argument that is a string or [None]. *)
Definition str_truthy (o : option string) : bool :=
  match o with
  | Some s => negb (String.eqb s EmptyString)
  | None => false
  end.

(** [d.get(k)] and [k in d] on the items of a dictionary. *)
Fixpoint items_get (k : string) (items : list (string * value)) : option value :=
  match items with
  | [] => None
  | (k', v) :: rest => if String.eqb k k' then Some v else items_get k rest
  end.

(** [v.get(k, default)]: only a dictionary has the method. *)
Definition py_get (v : value) (k : string) (dflt : value) : outcome value :=
  match v with
  | VDict items => Ret (from_option id dflt (items_get k items))
  | _ => Raise AttributeError
  end.

(** [v[k]] with a string key: [KeyError] on a dictionary without the
    key, [TypeError] on everything that is not a dictionary. *)
Definition py_getitem (v : value) (k : string) : outcome value :=
  match v with
  | VDict items =>
      match items_get k items with
      | Some x => Ret x
      | None => Raise (KeyError k)
      end
  | _ => Raise TypeError
  end.

(** [l[i]] on a list. *)
Definition list_getitem (l : list value) (i : nat) : outcome value :=
  match l !! i with
  | Some x => Ret x
  | None => Raise IndexError
  end.

(** The exact value of a finite number ([bool] is an [int]). *)
Definition as_number (v : value) : outcome Q :=
  match v with
  | VBool b => Ret (if b then 1%Q else 0%Q)
  | VInt z => Ret (inject_Z z)
  | VFloat q => Ret q
  | _ => Raise TypeError
  end.

(** [v >= t] for a finite float [t]: numbers compare by their exact
    values. *)
Definition py_ge (v : value) (t : Q) : outcome bool :=
  match v with
  | VInf negative => Ret (negb negative)
  | VNaN => Ret false
  | _ =>
      match as_number v with
      | Ret q => Ret (Qle_bool t q)
      | Raise e => Raise e
      end
  end.

(** *** Float arithmetic *)

(** The integer nearest to [n / d], the even one of two that are
    equally near ([0 <= n], [0 < d]). *)
Definition round_half_even (n d : Z) : Z :=
  let q := n / d in
  match 2 * (n mod d) ?= d with
  | Lt => q
  | Gt => q + 1
  | Eq => if Z.even q then q else q + 1
  end.

(** The [e] with [2 ^ e <= n / d < 2 ^ (e + 1)] ([0 < n], [0 < d]). *)
Definition floor_log2 (n d : Z) : Z :=
  let e := Z.log2 n - Z.log2 d in
  if (if 0 <=? e then d * 2 ^ e <=? n else d <=? n * 2 ^ (- e))
  then e else e - 1.

(** The double (IEEE 754 binary64) nearest to the real number [x],
    ties to even: 53 bits of precision, multiples of [2 ^ -1074] at the
    small end, and [None] when the nearest value would be [2 ^ 1024] or
    beyond. *)
Definition round_double (x : Q) : option Q :=
  let n := Z.abs (Qnum x) in
  let d := Zpos (Qden x) in
  if n =? 0 then Some 0%Q
  else
    let ex := Z.max (floor_log2 n d - 52) (-1074) in
    let m := if 0 <=? ex then round_half_even n (d * 2 ^ ex)
             else round_half_even (n * 2 ^ (- ex)) d in
    if 0 <=? ex then
      if 2 ^ 1024 <=? m * 2 ^ ex then None
      else Some (inject_Z (Z.sgn (Qnum x) * m * 2 ^ ex))
    else Some (Qred (Qmake (Z.sgn (Qnum x) * m) (Z.to_pos (2 ^ (- ex))))).

(** The float an operand of a float addition is turned into: an [int]
    beyond the range of a float raises [OverflowError]. *)
Definition to_float (v : value) : outcome value :=
  match v with
  | VBool b => Ret (VFloat (if b then 1%Q else 0%Q))
  | VInt z =>
      match round_double (inject_Z z) with
      | Some f => Ret (VFloat f)
      | None => Raise OverflowError
      end
  | VFloat q => Ret (VFloat q)
  | VInf negative => Ret (VInf negative)
  | VNaN => Ret VNaN
  | _ => Raise TypeError
  end.

(** [t + v] for a finite float [t]: the sum of two finite floats is
    their exact sum rounded, an infinity when that is out of range. *)
Definition py_float_add (t : Q) (v : value) : outcome value :=
  match to_float v with
  | Ret (VFloat q) =>
      match round_double (t + q) with
      | Some sum => Ret (VFloat sum)
      | None => Ret (VInf (Qle_bool (t + q) 0))
      end
  | Ret f => Ret f
  | Raise e => Raise e
  end.

(** ** Strings *)

Definition dquote : string := String "034"%char EmptyString.

(** [needle in hay]. *)
Fixpoint str_contains (needle hay : string) : bool :=
  match hay with
  | EmptyString => String.prefix needle EmptyString
  | String _ rest => String.prefix needle hay || str_contains needle rest
  end.

(** [s.split(sep)] for a non-empty separator: the pieces between the
    occurrences of [sep], scanned from the left.  [skip] counts the
    characters of a matched separator still to pass over, [cur] is the
    piece being read. *)
Fixpoint split_from (sep : string) (skip : nat) (cur : string) (s : string)
  : list string :=
  match s with
  | EmptyString => [cur]
  | String c rest =>
      match skip with
      | S k => split_from sep k cur rest
      | O =>
          if String.prefix sep s
          then cur :: split_from sep (Nat.pred (String.length sep)) EmptyString rest
          else split_from sep O (cur ++ String c EmptyString) rest
      end
  end.

Definition py_split (sep s : string) : list string :=
  split_from sep 0 EmptyString s.

(** [sep.join(l)]. *)
Fixpoint py_join (sep : string) (l : list string) : string :=
  match l with
  | [] => EmptyString
  | [x] => x
  | x :: rest => x ++ sep ++ py_join sep rest
  end.

(** [str(n)] for an [int]. *)
Definition str_of_int (z : Z) : string :=
  DecimalString.NilZero.string_of_int (Z.to_int z).

(** The characters of a [str]: a character starts at every byte that is
    not a UTF-8 continuation byte (10xxxxxx). *)
Definition is_continuation (c : ascii) : bool :=
  let n := N_of_ascii c in (128 <=? n)%N && (n <? 192)%N.

Fixpoint py_chars_from (cur : string) (s : string) : list string :=
  match s with
  | EmptyString => match cur with EmptyString => [] | _ => [cur] end
  | String c rest =>
      if is_continuation c
      then py_chars_from (cur ++ String c EmptyString) rest
      else match cur with
           | EmptyString => py_chars_from (String c EmptyString) rest
           | _ => cur :: py_chars_from (String c EmptyString) rest
           end
  end.

(** What [list.extend(v)] iterates over: the elements of a list, the
    keys of a dictionary, the characters of a string. *)
Definition py_iter (v : value) : outcome (list value) :=
  match v with
  | VList l => Ret l
  | VDict items => Ret (map (fun kv => VStr (fst kv)) items)
  | VStr s => Ret (map VStr (py_chars_from EmptyString s))
  | _ => Raise TypeError
  end.

(** ** Library functions on bytes *)

(** [bytes.decode("utf-8")]: the bytes are well-formed UTF-8 (no
    overlong form, no surrogate, nothing above U+10FFFF) or the call
    raises.  [need] continuation bytes are still due, the next of them
    within [lo..hi]. *)
Fixpoint utf8_ok (need : nat) (lo hi : N) (s : string) : bool :=
  match s with
  | EmptyString => match need with O => true | S _ => false end
  | String c rest =>
      let n := N_of_ascii c in
      match need with
      | S k => (lo <=? n)%N && (n <=? hi)%N && utf8_ok k 128 191 rest
      | O =>
          if (n <? 128)%N then utf8_ok 0 128 191 rest
          else if (n <? 194)%N then false
          else if (n <? 224)%N then utf8_ok 1 128 191 rest
          else if (n =? 224)%N then utf8_ok 2 160 191 rest
          else if (n =? 237)%N then utf8_ok 2 128 159 rest
          else if (n <? 240)%N then utf8_ok 2 128 191 rest
          else if (n =? 240)%N then utf8_ok 3 144 191 rest
          else if (n <? 244)%N then utf8_ok 3 128 191 rest
          else if (n =? 244)%N then utf8_ok 3 128 143 rest
          else false
      end
  end.

Definition utf8_decode (bytes : string) : outcome string :=
  if utf8_ok 0 128 191 bytes then Ret bytes else Raise UnicodeDecodeError.

(** The value of a character of the Base64 alphabet ([A-Z], [a-z],
    [0-9], [+], [/]), [None] for any other character. *)
Definition b64_value (c : ascii) : option N :=
  let n := N_of_ascii c in
  if (65 <=? n)%N && (n <=? 90)%N then Some (n - 65)%N
  else if (97 <=? n)%N && (n <=? 122)%N then Some (n - 71)%N
  else if (48 <=? n)%N && (n <=? 57)%N then Some (n + 4)%N
  else if (n =? 43)%N then Some 62%N
  else if (n =? 47)%N then Some 63%N
  else None.

Definition byte_of (n : N) : ascii := ascii_of_N (n mod 256).

(** [binascii.a2b_base64] without strict mode, which [b64decode] calls:
    characters outside the alphabet are skipped; [quad_pos] is the
    position in the current group of four, [leftchar] the bits of the
    group not yet written, [pads] the padding characters seen since the
    last data character; padding that completes a group ends the
    input, a group left open at the end is an error. *)
Fixpoint a2b_base64 (quad_pos : nat) (leftchar : N) (pads : nat)
    (out : string) (s : string) : outcome string :=
  match s with
  | EmptyString =>
      match quad_pos with O => Ret out | S _ => Raise BinasciiError end
  | String c rest =>
      if Ascii.eqb c "="%char then
        if (2 <=? quad_pos)%nat && (4 <=? quad_pos + S pads)%nat then Ret out
        else a2b_base64 quad_pos leftchar
               (if (2 <=? quad_pos)%nat then S pads else pads) out rest
      else
        match b64_value c with
        | None => a2b_base64 quad_pos leftchar pads out rest
        | Some this_ch =>
            match quad_pos with
            | 0%nat => a2b_base64 1 this_ch 0 out rest
            | 1%nat =>
                a2b_base64 2 (N.land this_ch 15) 0
                  (out ++ String (byte_of (N.lor (N.shiftl leftchar 2)
                                                 (N.shiftr this_ch 4)))
                                 EmptyString) rest
            | 2%nat =>
                a2b_base64 3 (N.land this_ch 3) 0
                  (out ++ String (byte_of (N.lor (N.shiftl leftchar 4)
                                                 (N.shiftr this_ch 2)))
                                 EmptyString) rest
            | _ =>
                a2b_base64 0 0 0
                  (out ++ String (byte_of (N.lor (N.shiftl leftchar 6) this_ch))
                                 EmptyString) rest
            end
        end
  end.

Definition is_ascii (s : string) : bool :=
  forallb (fun c => (N_of_ascii c <? 128)%N) (list_ascii_of_string s).

(** [base64.b64decode(v)]: a [str] has to be ASCII. *)
Definition b64decode (v : value) : outcome string :=
  match v with
  | VStr s =>
      if is_ascii s then a2b_base64 0 0 0 EmptyString s
      else Raise (ValueError "string argument should contain only ASCII characters")
  | _ => Raise TypeError
  end.

(** The Base64 encoding of RFC 4648, the reference [b64decode] is
    measured against. *)
Definition b64_char (n : N) : ascii :=
  ascii_of_N (if (n <? 26)%N then n + 65
              else if (n <? 52)%N then n + 71
              else if (n <? 62)%N then n - 4
              else if (n =? 62)%N then 43 else 47).

Fixpoint b64encode_bytes (l : list N) : string :=
  match l with
  | [] => EmptyString
  | [a] =>
      String (b64_char (a / 4)) (String (b64_char (a mod 4 * 16)) "==")
  | [a; b] =>
      String (b64_char (a / 4))
        (String (b64_char (a mod 4 * 16 + b / 16))
           (String (b64_char (b mod 16 * 4)) "="))
  | a :: b :: c :: rest =>
      String (b64_char (a / 4))
        (String (b64_char (a mod 4 * 16 + b / 16))
           (String (b64_char (b mod 16 * 4 + c / 64))
              (String (b64_char (c mod 64)) (b64encode_bytes rest))))
  end%N.

Definition b64encode (bytes : string) : string :=
  b64encode_bytes (map N_of_ascii (list_ascii_of_string bytes)).

(** ** HTTP requests and responses *)

Inductive http_method : Type := GET | POST | DELETE.

(** A call of [requests.get], [requests.post] or [requests.delete]: the
    [headers], [params] and [data] dictionaries as the caller built
    them, [None] values included. *)
Record request : Type := Request {
  meth : http_method;
  url : string;
  headers : gmap string value;
  params : gmap string value;
  form : gmap string value
}.

(** What the code reads of a [requests.Response]: [body] is what
    [response.json()] decodes, [None] when the body is not JSON. *)
Record response : Type := Response {
  status_code : Z;
  reason : string;
  content_type : option string;
  body : option value
}.

(** [requests] leaves a key whose value is [None] out of the query
    string and out of the headers: a key is emitted with the value it
    has when that value is not [None]. *)
Definition emitted (d : gmap string value) (k : string) : option value :=
  match d !! k with
  | Some VNone => None
  | o => o
  end.

(** [response.json()]. *)
Definition json (r : response) : outcome value :=
  match body r with
  | Some v => Ret v
  | None => Raise JSONDecodeError
  end.

(** ** The world the functions run in *)

Record world : Type := World {
  _token_cache : gmap string value;
  sent : list request;
  clock_reads : nat
}.

(** The outside: string functions of the Python library that are taken
    as given; the places [_get_config()] reads ([django] is, when
    Django is installed and configured, the values of the three
    settings, each a string or [None]; [environ] is [os.environ],
    [input] and [getpass] are the answers typed at a prompt); the
    reading [clock k] of the [k]-th call of [time()]; and the response
    [server history r] to request [r] sent after the requests
    [history].  Every request gets a response, and a configured Django
    defines the three settings: a transport failure inside [requests]
    and the [AttributeError] of a settings module without one of the
    names are not part of the model.  Log lines are left out, they
    change nothing the functions return or store. *)
Record env : Type := Env {
  quote_plus : string -> string;
  urljoin : string -> string -> string;
  py_str : value -> string;
  django : option (option string * option string * option string);
  environ : gmap string string;
  input : string -> string;
  getpass : string -> string;
  clock : nat -> Q;
  server : list request -> request -> response
}.

(** A computation reads and updates the world and returns or raises. *)
Definition M (A : Type) : Type := world -> outcome A * world.

Definition ret {A} (a : A) : M A := fun w => (Ret a, w).
Definition raise {A} (e : exn) : M A := fun w => (Raise e, w).
Definition bind {A B} (m : M A) (k : A -> M B) : M B :=
  fun w => match m w with
           | (Ret a, w') => k a w'
           | (Raise e, w') => (Raise e, w')
           end.
Definition lift {A} (o : outcome A) : M A := fun w => (o, w).

Declare Scope py_scope.
Delimit Scope py_scope with py.
Notation "x <~ m ;; k" := (bind m (fun x => k))
  (at level 63, m at next level, right associativity) : py_scope.
Notation "m ;;; k" := (bind m (fun _ => k))
  (at level 63, right associativity) : py_scope.
Open Scope py_scope.

Definition cache_getitem (k : string) : M value :=
  fun w => match _token_cache w !! k with
           | Some v => (Ret v, w)
           | None => (Raise (KeyError k), w)
           end.

Definition cache_setitem (k : string) (v : value) : M unit :=
  fun w => (Ret tt, World (<[k := v]> (_token_cache w)) (sent w) (clock_reads w)).

(** [bool(_token_cache)]: a dictionary is true when it has a key. *)
Definition cache_nonempty : M bool :=
  fun w => (Ret (negb (bool_decide (dom (_token_cache w) = ∅))), w).

Section Program.
Context (E : env).

Definition time : M Q :=
  fun w => (Ret (clock E (clock_reads w)),
            World (_token_cache w) (sent w) (S (clock_reads w))).

(** Sending a request logs it and returns the server's response. *)
Definition send (r : request) : M response :=
  fun w => (Ret (server E (sent w) r),
            World (_token_cache w) (sent w ++ [r]) (clock_reads w)).

(** ["Request failed ({} {}) - {}".format(status_code, reason, message)] *)
Definition error_message (r : response) (message : value) : string :=
  "Request failed (" ++ str_of_int (status_code r) ++ " " ++ reason r
    ++ ") - " ++ py_str E message.

(** *** core.py *)

Definition CLOCK_SKEW_SECONDS : Q := inject_Z (5 * 60).

(** [_get_config()]: the credentials from the Django settings, or from
    the environment when Django is not there or not configured; any of
    them that is [None] or empty there is asked for at a prompt. *)
Definition _get_config : string * string * string :=
  let '(tenant_id, client_id, client_secret) :=
    match django E with
    | Some settings => settings
    | None => (environ E !! "AAD_TENANT_ID", environ E !! "AAD_CLIENT_ID",
               environ E !! "AAD_CLIENT_SECRET")
    end in
  (if str_truthy tenant_id then from_option id EmptyString tenant_id
   else input E "AAD_TENANT_ID: ",
   if str_truthy client_id then from_option id EmptyString client_id
   else input E "AAD_CLIENT_ID: ",
   if str_truthy client_secret then from_option id EmptyString client_secret
   else getpass E "AAD_CLIENT_SECRET: ").

Definition token_request : request :=
  let '(tenant_id, client_id, client_secret) := _get_config in
  Request POST
    ("https://login.microsoftonline.com/" ++ quote_plus E tenant_id
       ++ "/oauth2/v2.0/token")
    ∅ ∅
    (<["grant_type" := VStr "client_credentials"]>
       (<["scope" := VStr "https://graph.microsoft.com/.default"]>
          (<["client_id" := VStr client_id]>
             (<["client_secret" := VStr client_secret]> ∅)))).

(** The first half of [get_token]: the cached token when there is one
    that is still good for [CLOCK_SKEW_SECONDS].  The expiry is
    compared with the exact value of [time() + CLOCK_SKEW_SECONDS]; the
    float sum differs from it by the rounding of the last bit. *)
Definition cached_token : M (option value) :=
  nonempty <~ cache_nonempty ;;
  if nonempty : bool then
    exp <~ cache_getitem "exp" ;;
    now <~ time ;;
    fresh <~ lift (py_ge exp (now + CLOCK_SKEW_SECONDS)%Q) ;;
    if fresh : bool then
      jwt <~ cache_getitem "jwt" ;;
      ret (Some jwt)
    else ret None
  else ret None.

Definition get_token : M value :=
  cached <~ cached_token ;;
  match cached with
  | Some jwt => ret jwt
  | None =>
      response <~ send token_request ;;
      if negb (status_code response =? 200) then
        js <~ lift (json response) ;;
        description <~ lift (py_get js "error_description" VNone) ;;
        raise (ConnectionError (error_message response description))
      else
        data <~ lift (json response) ;;
        access_token <~ lift (py_getitem data "access_token") ;;
        cache_setitem "jwt" access_token ;;;
        now <~ time ;;
        expires_in <~ lift (py_getitem data "expires_in") ;;
        exp <~ lift (py_float_add now expires_in) ;;
        cache_setitem "exp" exp ;;;
        lift (py_getitem data "access_token")
  end.

(** *** devices.py *)

(** The paging loop of [get_device] and of [list_owned_devices]; the
    two copies differ in one place, the default of [.get("value")]
    ([default_page]).  One pass of the loop body either leaves the loop
    with the accumulated [data] or goes round again with the
    [$skiptoken] added to [params]. *)
Inductive step : Type :=
| Break (data : list value)
| Continue (data : list value) (params : gmap string value).

(** [next_link.split("$skiptoken=")[1]] *)
Definition skiptoken_of (next_link : value) : outcome value :=
  match next_link with
  | VStr s =>
      match py_split "$skiptoken=" s !! 1%nat with
      | Some piece => Ret (VStr piece)
      | None => Raise IndexError
      end
  | _ => Raise AttributeError
  end.

(** The [if response.status_code != ...:] block of the four device
    functions. *)
Definition raise_request_failed {A} (response : response) : M A :=
  js <~ lift (json response) ;;
  error <~ lift (py_get js "error" (VDict [])) ;;
  message <~ lift (py_get error "message" VNone) ;;
  raise (ConnectionError (error_message response message)).

(** The body of [while True:].  The [count] read from [@odata.count]
    only goes into a log line. *)
Definition page_step (default_page : value -> value) (url : string)
    (headers params : gmap string value) (all : bool) (top : option Z)
    (data : list value) : M step :=
  response <~ send (Request GET url headers params ∅) ;;
  if negb (status_code response =? 200) then raise_request_failed response
  else
    js <~ lift (json response) ;;
    page <~ lift (py_get js "value" (default_page js)) ;;
    items <~ lift (py_iter page) ;;
    next_link <~ lift (py_get js "@odata.nextLink" VNone) ;;
    if truthy next_link && (all && bool_decide (top = None)) then
      skiptoken <~ lift (skiptoken_of next_link) ;;
      ret (Continue (data ++ items) (<["$skiptoken" := skiptoken]> params))
    else ret (Break (data ++ items)).

(** [while True:] with the number of passes bounded by [fuel]; the
    result is [None] when the fuel runs out before the loop ends. *)
Fixpoint page_loop (fuel : nat) (default_page : value -> value) (url : string)
    (headers params : gmap string value) (all : bool) (top : option Z)
    (data : list value) (w : world) : option (outcome (list value)) * world :=
  match fuel with
  | O => (None, w)
  | S fuel' =>
      match page_step default_page url headers params all top data w with
      | (Ret (Break data'), w') => (Some (Ret data'), w')
      | (Ret (Continue data' params'), w') =>
          page_loop fuel' default_page url headers params' all top data' w'
      | (Raise e, w') => (Some (Raise e), w')
      end
  end.

(** The arguments [select] and [orderby]: a string or a list of strings. *)
Inductive str_or_list : Type :=
| Str (s : string)
| Strs (l : list string).

(** The OData arguments shared by the two list calls. *)
Record query : Type := Query {
  select : option str_or_list;
  filter : option string;
  search : option string;
  orderby : option str_or_list;
  top : option Z;
  all : bool
}.

Definition sel_truthy (o : option str_or_list) : bool :=
  match o with
  | Some (Str s) => negb (String.eqb s EmptyString)
  | Some (Strs l) => match l with [] => false | _ => true end
  | None => false
  end.

Definition ensure_list (v : str_or_list) : list string :=
  match v with
  | Str s => [s]
  | Strs l => l
  end.

Definition joined (o : option str_or_list) : value :=
  match o with
  | Some v => if sel_truthy o then VStr (py_join "," (ensure_list v)) else VNone
  | None => VNone
  end.

Definition MAX_PAGE_SIZE : Z := 999.

(** [filter or search or orderby] as a condition. *)
Definition advanced (q : query) : bool :=
  str_truthy (filter q) || str_truthy (search q) || sel_truthy (orderby q).

Definition bearer (token : value) : gmap string value :=
  {[ "Authorization" := VStr ("Bearer " ++ py_str E token) ]}.

(** The [headers] dictionary of the two list calls. *)
Definition odata_headers (token : value) (q : query) : gmap string value :=
  <["ConsistencyLevel" := if advanced q then VStr "eventual" else VNone]>
    (bearer token).

(** The [params] dictionary of the two list calls. *)
Definition odata_params (q : query) : gmap string value :=
  <["$select" := joined (select q)]>
  (<["$filter" := match filter q with Some f => VStr f | None => VNone end]>
  (<["$search" := match search q with
                  | Some s => if str_truthy (search q)
                              then VStr (dquote ++ s ++ dquote) else VNone
                  | None => VNone
                  end]>
  (<["$orderby" := joined (orderby q)]>
  (<["$top" := match top q with
               | Some n => VInt n
               | None => if all q then VInt MAX_PAGE_SIZE else VNone
               end]>
  (<["$count" := if advanced q then VStr "true" else VNone]> ∅))))).

Definition DEVICES_URL : string := "https://graph.microsoft.com/v1.0/devices".

Definition get_device (fuel : nat) (device_id : option string) (q : query)
    (w : world) : option (outcome value) * world :=
  if str_truthy device_id && (str_truthy (filter q) || str_truthy (search q))
  then (Some (Raise (ValueError
          "Parameters device_id and filter|search are mutually exclusive.")), w)
  else
    let url :=
      if str_truthy device_id
      then urljoin E (DEVICES_URL ++ "/")
             (quote_plus E (from_option id EmptyString device_id))
      else DEVICES_URL in
    match get_token w with
    | (Raise e, w1) => (Some (Raise e), w1)
    | (Ret token, w1) =>
        match page_loop fuel (fun js => VList [js]) url
                (odata_headers token q) (odata_params q) (all q) (top q) [] w1 with
        | (Some (Ret data), w2) =>
            if str_truthy device_id then (Some (list_getitem data 0), w2)
            else (Some (Ret (VList data)), w2)
        | (Some (Raise e), w2) => (Some (Raise e), w2)
        | (None, w2) => (None, w2)
        end
    end.

Definition delete_device (device_id : string) : M value :=
  let url := "https://graph.microsoft.com/v1.0/devices/" ++ quote_plus E device_id in
  token <~ get_token ;;
  response <~ send (Request DELETE url (bearer token) ∅ ∅) ;;
  if negb (status_code response =? 204) then raise_request_failed response
  else ret (VBool true).

Definition list_owned_devices (fuel : nat) (user_id : string) (q : query)
    (w : world) : option (outcome value) * world :=
  let url := "https://graph.microsoft.com/v1.0/users/" ++ quote_plus E user_id
               ++ "/ownedDevices" in
  match get_token w with
  | (Raise e, w1) => (Some (Raise e), w1)
  | (Ret token, w1) =>
      match page_loop fuel (fun _ => VNone) url
              (odata_headers token q) (odata_params q) (all q) (top q) [] w1 with
      | (Some (Ret data), w2) => (Some (Ret (VList data)), w2)
      | (Some (Raise e), w2) => (Some (Raise e), w2)
      | (None, w2) => (None, w2)
      end
  end.

(** [data[0]] on whatever [response.json()["credentials"]] is. *)
Definition first_item (data : value) : outcome value :=
  match data with
  | VList l => list_getitem l 0
  | VStr s =>
      match py_chars_from EmptyString s with
      | c :: _ => Ret (VStr c)
      | [] => Raise IndexError
      end
  | VDict _ => Raise (KeyError "0")
  | _ => Raise TypeError
  end.

Definition get_laps_password (device_id : string) : M value :=
  let url := "https://graph.microsoft.com/v1.0/directory/deviceLocalCredentials/"
               ++ quote_plus E device_id in
  token <~ get_token ;;
  response <~ send (Request GET url (bearer token)
                      {[ "$select" := VStr "credentials" ]} ∅) ;;
  if negb (status_code response =? 200) then raise_request_failed response
  else if negb (str_contains "application/json"
                  (from_option id EmptyString (content_type response)))
  then ret VNone
  else
    js <~ lift (json response) ;;
    data <~ lift (py_getitem js "credentials") ;;
    first <~ lift (first_item data) ;;
    encoded_pwd <~ lift (py_get first "passwordBase64" (VStr EmptyString)) ;;
    bytes <~ lift (b64decode encoded_pwd) ;;
    decoded_pwd <~ lift (utf8_decode bytes) ;;
    ret (VStr decoded_pwd).

End Program.

(** * The vocabulary of the properties *)

(** ** Arguments *)

(** A string argument that was passed and is not the empty string. *)
Definition given (o : option string) : Prop :=
  exists s, o = Some s /\ s <> EmptyString.

(** The same for [select] and [orderby]: a non-empty string or a
    non-empty list. *)
Definition given_sel (o : option str_or_list) : Prop :=
  (exists s, o = Some (Str s) /\ s <> EmptyString)
  \/ (exists l, o = Some (Strs l) /\ l <> []).

(** ** One pass of the paging loop *)

(** What a response carries, in the words of the Graph protocol. *)

(** The [value] array of a page. *)
Definition page_values (r : response) : option (list value) :=
  match body r with
  | Some (VDict items) =>
      match items_get "value" items with
      | Some (VList vs) => Some vs
      | _ => None
      end
  | _ => None
  end.

(** The [@odata.nextLink] member of a page, [None] without one. *)
Definition next_link (r : response) : value :=
  match body r with
  | Some (VDict items) => from_option id VNone (items_get "@odata.nextLink" items)
  | _ => VNone
  end.

(** The continuation cursor of a page: the [$skiptoken] that its
    [@odata.nextLink] URL carries. *)
Definition continuation_cursor (r : response) : option string :=
  match next_link r with
  | VStr link => py_split "$skiptoken=" link !! 1%nat
  | _ => None
  end.

(** The provider's error message: [error.message] of a JSON object
    body, [None] when the object has no [error] or the error no
    [message]; undefined when the body is not such an object. *)
Definition provider_message (r : response) : option value :=
  match body r with
  | Some (VDict items) =>
      match items_get "error" items with
      | None => Some VNone
      | Some (VDict error) => Some (from_option id VNone (items_get "message" error))
      | Some _ => None
      end
  | _ => None
  end.

(** The exception a failed response ends a call with: the
    [ConnectionError] built from status, reason and provider message
    when the body is a JSON object whose [error] is absent or an
    object, and otherwise what reading the body raises. *)
Definition request_error (E : env) (r : response) : exn :=
  match body r with
  | None => JSONDecodeError
  | Some (VDict items) =>
      match items_get "error" items with
      | None => ConnectionError (error_message E r VNone)
      | Some (VDict error) =>
          ConnectionError
            (error_message E r (from_option id VNone (items_get "message" error)))
      | Some _ => AttributeError
      end
  | Some _ => AttributeError
  end.

Definition fetch_all (all : bool) (top : option Z) : Prop :=
  all = true /\ top = None.

Definition get_request (url : string) (headers params : gmap string value)
  : request := Request GET url headers params ∅.

Definition after_send (w : world) (r : request) : world :=
  World (_token_cache w) (sent w ++ [r]) (clock_reads w).

(** ** The two list calls run the loop *)

Definition owned_devices_url (E : env) (user_id : string) : string :=
  "https://graph.microsoft.com/v1.0/users/" ++ quote_plus E user_id
    ++ "/ownedDevices".

(** What the list calls make of the loop's result. *)
Definition as_list (r : option (outcome (list value)) * world)
  : option (outcome value) * world :=
  match r with
  | (Some (Ret data), w) => (Some (Ret (VList data)), w)
  | (Some (Raise e), w) => (Some (Raise e), w)
  | (None, w) => (None, w)
  end.

(** [run] is the outcome of a paginated list call: of
    [list_owned_devices], or of [get_device] in list mode (without a
    [device_id]). *)
Definition list_call (E : env) (fuel : nat) (q : query) (w : world)
    (run : option (outcome value) * world) : Prop :=
  (exists user_id, run = list_owned_devices E fuel user_id q w)
  \/ (exists device_id, ~ given device_id /\ run = get_device E fuel device_id q w).

(** ** A server that answers page after page *)

(** After [n] requests, the server answers the following ones with
    [pages], in order, whatever the requests say. *)
Definition answers_in_order (E : env) (n : nat) (pages : list response) : Prop :=
  forall k p history request,
    pages !! k = Some p -> length history = (n + k)%nat ->
    server E history request = p.

(** A successful page that links to a next one. *)
Definition linked_page (r : response) : Prop :=
  status_code r = 200 /\ is_Some (page_values r)
  /\ is_Some (continuation_cursor r).

(** A successful page without a continuation link. *)
Definition final_page (r : response) : Prop :=
  status_code r = 200 /\ is_Some (page_values r)
  /\ truthy (next_link r) = false.

(** The [value] arrays of the pages, one after the other. *)
Definition all_values (pages : list response) : list value :=
  concat (map (fun r => from_option id [] (page_values r)) pages).

(** ** Failed requests *)

Arguments raise_request_failed : simpl never.

(** The URL [get_device] asks: the collection, or one device. *)
Definition device_url (E : env) (device_id : option string) : string :=
  if str_truthy device_id
  then urljoin E (DEVICES_URL ++ "/")
         (quote_plus E (from_option id EmptyString device_id))
  else DEVICES_URL.

Definition laps_request (E : env) (token : value) (device_id : string) : request :=
  Request GET
    ("https://graph.microsoft.com/v1.0/directory/deviceLocalCredentials/"
       ++ quote_plus E device_id)
    (bearer E token) {[ "$select" := VStr "credentials" ]} ∅.

Definition delete_request (E : env) (token : value) (device_id : string) : request :=
  Request DELETE
    ("https://graph.microsoft.com/v1.0/devices/" ++ quote_plus E device_id)
    (bearer E token) ∅ ∅.

(** ** The LAPS password *)

(** The test [get_laps_password] makes on the [Content-Type] header. *)
Definition indicates_json (r : response) : bool :=
  str_contains "application/json" (from_option id EmptyString (content_type r)).

(** ** More of the token cache *)

(** The world after one more reading of the clock. *)
Definition after_clock (w : world) : world :=
  World (_token_cache w) (sent w) (S (clock_reads w)).

(** ** The requests of one paged call *)

(** A request of the paging loop that was started with the URL [u],
    the headers [h] and the parameters [p]: a GET of the same URL with
    the same headers and, [$skiptoken] apart, the same parameters. *)
Definition same_query (u : string) (h p : gmap string value) (r : request)
  : Prop :=
  meth r = GET /\ url r = u /\ headers r = h /\ form r = ∅
  /\ forall k, k <> "$skiptoken" -> params r !! k = p !! k.

(** What [get_device] makes of the loop's result: the list, or its
    first element when a [device_id] was given. *)
Definition as_device (device_id : option string)
    (r : option (outcome (list value)) * world)
  : option (outcome value) * world :=
  match r with
  | (Some (Ret data), w) =>
      if str_truthy device_id then (Some (list_getitem data 0), w)
      else (Some (Ret (VList data)), w)
  | (Some (Raise e), w) => (Some (Raise e), w)
  | (None, w) => (None, w)
  end.

(** The arguments of [get_device] pass its first check. *)
Definition compatible (device_id : option string) (q : query) : Prop :=
  ~ (given device_id /\ (given (filter q) \/ given (search q))).

(** * Example environments *)

Module Example.

Definition show (v : value) : string :=
  match v with
  | VStr s => s
  | VInt z => str_of_int z
  | _ => "None"
  end.

Definition page (items : list (string * value)) : response :=
  Response 200 "OK" (Some "application/json") (Some (VDict items)).

Definition token_response : response :=
  page [("access_token", VStr "tok-1"); ("expires_in", VInt 3600)].

(** The credentials are set in the environment; Django is not there. *)
Definition credentials_in_environ : gmap string string :=
  <["AAD_TENANT_ID" := "tenant"]>
    (<["AAD_CLIENT_ID" := "client"]> {[ "AAD_CLIENT_SECRET" := "secret" ]}).

(** A server that answers every request with [r]. *)
Definition constant (r : response) : env :=
  Env id String.append show None credentials_in_environ
    (fun _ => EmptyString) (fun _ => EmptyString)
    (fun _ => 1000%Q) (fun _ _ => r).

(** A server that answers the [k]-th request it gets with the [k]-th
    response of [script], and with [last] after that. *)
Definition scripted (script : list response) (last : response) : env :=
  Env id String.append show None credentials_in_environ
    (fun _ => EmptyString) (fun _ => EmptyString)
    (fun _ => 1000%Q)
    (fun history _ => nth (length history) script last).

Definition start : world := World ∅ [] 0.

(** A world with a token cached until [exp]. *)
Definition logged_in (exp : Q) : world :=
  World (<["exp" := VFloat exp]> {[ "jwt" := VStr "tok-0" ]}) [] 0.

End Example.

Module Example_pages.

Definition device (name : string) : value := VDict [("displayName", VStr name)].

Definition page1 : response :=
  Example.page
    [("@odata.count", VInt 4);
     ("value", VList [device "a"; device "b"]);
     ("@odata.nextLink",
      VStr "https://graph.microsoft.com/v1.0/devices?$top=999&$skiptoken=p2")].

Definition page2 : response :=
  Example.page
    [("value", VList [device "c"]);
     ("@odata.nextLink",
      VStr "https://graph.microsoft.com/v1.0/devices?$top=999&$skiptoken=p3")].

Definition page3 : response :=
  Example.page [("value", VList [device "d"])].

(** A page whose link continues with [$skip], not with [$skiptoken]. *)
Definition skip_linked : response :=
  Example.page
    [("value", VList [device "a"]);
     ("@odata.nextLink",
      VStr "https://graph.microsoft.com/v1.0/devices?$skip=100")].

Definition unavailable : response :=
  Response 503 "Service Unavailable" (Some "application/json")
    (Some (VDict [("error", VDict [("code", VStr "serviceNotAvailable");
                                   ("message", VStr "try again later")])])).

(** A gateway error: the body is a page of HTML, not JSON. *)
Definition bad_gateway : response :=
  Response 502 "Bad Gateway" (Some "text/html") None.

(** Three pages to a client that has to log in first. *)
Definition login_then_pages : env :=
  Example.scripted [Example.token_response; page1; page2; page3] unavailable.

Definition fetch_everything : query := Query None None None None None true.

End Example_pages.

Module Example_laps.

Definition credentials (entry : list (string * value)) : response :=
  Example.page
    [("id", VStr "device-1");
     ("credentials", VList [VDict entry])].

Definition with_password : env :=
  Example.constant
    (credentials [("accountName", VStr "Administrator");
                  ("passwordBase64", VStr "cGFzcw==")]).

Definition without_password : env :=
  Example.constant (credentials [("accountName", VStr "Administrator")]).

End Example_laps.

Module Example_token.

(** A token response that does not say when the token expires. *)
Definition without_expiry : response :=
  Example.page [("access_token", VStr "tok-1")].

(** A clock that shows 1000, then 1100, then 5000. *)
Definition ticking : env :=
  Env id String.append Example.show None Example.credentials_in_environ
    (fun _ => EmptyString) (fun _ => EmptyString)
    (fun k => match k with 0%nat => 1000%Q | 1%nat => 1100%Q | _ => 5000%Q end)
    (fun _ _ => Example.token_response).

(** A token response whose [expires_in] no float can hold. *)
Definition expires_beyond_float : response :=
  Example.page [("access_token", VStr "tok-1"); ("expires_in", VInt (10 ^ 400))].

(** The doubles 0.1 and 0.2. *)
Definition a_tenth : Q := 3602879701896397 # 36028797018963968.
Definition two_tenths : Q := 3602879701896397 # 18014398509481984.

(** The clock shows 0.1 and the token is good for 0.2 seconds. *)
Definition at_a_tenth : env :=
  Env id String.append Example.show None Example.credentials_in_environ
    (fun _ => EmptyString) (fun _ => EmptyString)
    (fun _ => a_tenth)
    (fun _ _ => Example.page [("access_token", VStr "tok-1");
                              ("expires_in", VFloat two_tenths)]).

End Example_token.

Module Example_device.

(** The answer to a request for one device: the object itself. *)
Definition one_device : response :=
  Example.page [("id", VStr "device-1"); ("displayName", VStr "a")].

Definition by_id : query := Query None None None None None false.

End Example_device.

Module Example_edges.

(** A JSON answer about a device that has no credentials. *)
Definition no_credentials : response :=
  Example.page [("id", VStr "device-1"); ("credentials", VList [])].

End Example_edges.

(** * Properties *)

(** ** Float arithmetic *)

Lemma round_half_even_one n : round_half_even n 1 = n.
Proof.
  unfold round_half_even. rewrite Z.mod_1_r, Z.div_1_r. reflexivity.
Qed.

Lemma Qred_inject_Z (z : Z) : Qred (inject_Z z) = inject_Z z.
Proof.
  unfold Qred, inject_Z.
  pose proof (Z.ggcd_gcd z 1) as Hg.
  pose proof (Z.ggcd_correct_divisors z 1) as Hd.
  destruct (Z.ggcd z 1) as [g [a b]]. cbn in Hg, Hd.
  rewrite Z.gcd_1_r in Hg. subst g. destruct Hd as [-> Hb].
  assert (b = 1) as -> by lia. f_equal. lia.
Qed.

(** A float holds every integer below [2 ^ 53] exactly. *)
Lemma round_double_int (z : Z) :
  Z.abs z < 2 ^ 53 -> round_double (inject_Z z) = Some (inject_Z z).
Proof.
  intros Hz. unfold round_double. cbn [Qnum Qden inject_Z].
  destruct (Z.eqb_spec (Z.abs z) 0) as [H0|H0].
  { f_equal. assert (z = 0) by lia. subst. reflexivity. }
  assert (Hlog : 0 <= Z.log2 (Z.abs z) < 53).
  { split; [apply Z.log2_nonneg|]. apply Z.log2_lt_pow2; lia. }
  assert (Hfl : floor_log2 (Z.abs z) 1 = Z.log2 (Z.abs z)).
  { unfold floor_log2. change (Z.log2 1) with 0. rewrite Z.sub_0_r.
    destruct (Z.leb_spec 0 (Z.log2 (Z.abs z))); [|lia].
    rewrite Z.mul_1_l.
    destruct (Z.leb_spec (2 ^ Z.log2 (Z.abs z)) (Z.abs z)) as [|Hlt]; [done|].
    pose proof (Z.log2_spec (Z.abs z)). lia. }
  rewrite Hfl.
  set (e := Z.log2 (Z.abs z)) in *.
  rewrite Z.max_l by lia.
  destruct (Z.leb_spec 0 (e - 52)) as [He|He].
  - assert (e - 52 = 0) as -> by lia.
    change (2 ^ 0) with 1. rewrite Z.mul_1_r, round_half_even_one, !Z.mul_1_r.
    destruct (Z.leb_spec (2 ^ 1024) (Z.abs z)) as [Hbig|_].
    { assert (2 ^ 53 < 2 ^ 1024) by (apply Z.pow_lt_mono_r; lia). lia. }
    do 2 f_equal. lia.
  - rewrite round_half_even_one. f_equal.
    assert (Hpos : 0 < 2 ^ (- (e - 52))) by (apply Z.pow_pos_nonneg; lia).
    etrans; [|apply Qred_inject_Z].
    apply Qred_complete.
    unfold Qeq, inject_Z. cbn [Qnum Qden].
    rewrite Z2Pos.id by lia.
    assert (Z.sgn z * Z.abs z = z) by lia. nia.
Qed.

(** The doubles nearest to 1/10 and to 3/10, and the sum of the doubles
    0.1 and 0.2, which is neither 3/10 nor the double nearest to it. *)
Example round_double_tenths :
  round_double (1 # 10) = Some Example_token.a_tenth
  /\ round_double (3 # 10) = Some (5404319552844595 # 18014398509481984)
  /\ round_double (Example_token.a_tenth + Example_token.two_tenths)
     = Some (1351079888211149 # 4503599627370496).
Proof. repeat split; vm_compute; reflexivity. Qed.

(** Halfway between two doubles the even one is taken. *)
Example round_double_ties_to_even :
  round_double (inject_Z (2 ^ 53 + 1)) = Some (inject_Z (2 ^ 53))
  /\ round_double (inject_Z (2 ^ 53 + 3)) = Some (inject_Z (2 ^ 53 + 4)).
Proof. split; vm_compute; reflexivity. Qed.

(** The largest double is [2 ^ 1024 - 2 ^ 971]; from halfway to
    [2 ^ 1024] on there is no double to round to. *)
Example round_double_range :
  round_double (inject_Z (2 ^ 1024 - 2 ^ 970 - 1))
  = Some (inject_Z (2 ^ 1024 - 2 ^ 971))
  /\ round_double (inject_Z (2 ^ 1024 - 2 ^ 970)) = None
  /\ round_double (inject_Z (10 ^ 400)) = None.
Proof. repeat split; vm_compute; reflexivity. Qed.

(** A time with a fraction: 1700000000.25 and 3599 seconds. *)
Example float_sum_of_seconds :
  py_float_add (6800000001 # 4) (VInt 3599) = Ret (VFloat (6800014397 # 4)).
Proof. vm_compute. reflexivity. Qed.

(** ** The token cache *)

Lemma cache_nonempty_spec w :
  cache_nonempty w = (Ret (negb (bool_decide (_token_cache w = ∅))), w).
Proof.
  unfold cache_nonempty. do 3 f_equal.
  apply bool_decide_ext. apply dom_empty_iff_L.
Qed.

(** The cache check reads the clock at most once and touches neither
    the cache nor the network. *)
Lemma cached_token_world (E : env) w o w0 :
  cached_token E w = (o, w0) ->
  _token_cache w0 = _token_cache w /\ sent w0 = sent w.
Proof.
  unfold cached_token, bind, cache_nonempty, cache_getitem, time, lift, ret.
  repeat (case_match; simplify_eq/=; try done);
    intros [= <- <-]; done.
Qed.

(** An empty cache falls through to the token request at once. *)
Lemma cached_token_empty (E : env) w :
  _token_cache w = ∅ -> cached_token E w = (Ret None, w).
Proof.
  intros H. unfold cached_token, bind. rewrite cache_nonempty_spec, H.
  by rewrite bool_decide_eq_true_2.
Qed.

(** A token that is no longer good for the skew falls through as well. *)
Lemma cached_token_expired (E : env) w exp :
  _token_cache w !! "exp" = Some (VFloat exp) ->
  (exp < clock E (clock_reads w) + 300)%Q ->
  cached_token E w
  = (Ret None, World (_token_cache w) (sent w) (S (clock_reads w))).
Proof.
  intros Hexp Hlt. unfold cached_token, bind.
  rewrite cache_nonempty_spec.
  rewrite bool_decide_eq_false_2 by (intros H0; rewrite H0 in Hexp; done).
  cbn. unfold cache_getitem. rewrite Hexp. cbn.
  destruct (Qle_bool _ exp) eqn:Hle; [|done].
  apply Qle_bool_iff in Hle. exfalso. eapply Qlt_not_le; eauto.
Qed.

(** C3. When the cache holds a token whose expiry lies more than 300
    seconds after the current time, [get_token] returns that very
    token, sends no request and leaves the cache as it is (the only
    trace of the call is one more reading of the clock). *)
Theorem get_token_uses_cache (E : env) (w : world) (jwt : value) (exp : Q) :
  _token_cache w !! "jwt" = Some jwt ->
  _token_cache w !! "exp" = Some (VFloat exp) ->
  (clock E (clock_reads w) + 300 < exp)%Q ->
  get_token E w
  = (Ret jwt, World (_token_cache w) (sent w) (S (clock_reads w))).
Proof.
  intros Hjwt Hexp Hlt. unfold get_token, cached_token, bind.
  rewrite cache_nonempty_spec.
  rewrite bool_decide_eq_false_2 by (intros H0; rewrite H0 in Hexp; done).
  cbn. unfold cache_getitem. rewrite Hexp. cbn.
  assert (Hle : Qle_bool (clock E (clock_reads w) + CLOCK_SKEW_SECONDS) exp = true).
  { apply Qle_bool_iff, Qlt_le_weak, Hlt. }
  rewrite Hle. cbn. by rewrite Hjwt.
Qed.

Lemma get_token_uses_cache_witness :
  get_token (Example.constant Example.token_response) (Example.logged_in 5000)
  = (Ret (VStr "tok-0"),
     World (_token_cache (Example.logged_in 5000)) [] 1).
Proof.
  apply (get_token_uses_cache _ (Example.logged_in 5000) (VStr "tok-0") 5000);
    reflexivity.
Defined.

(** C4 as stated fails.  An [expires_in] that is an [int] beyond the
    range of a float makes [time() + expires_in] raise [OverflowError]
    after the token was stored: nothing is returned and the cache has
    no expiry.  And the expiry that is stored is a float sum, which is
    rounded: at time 0.1 a token good for 0.2 seconds gets an expiry
    that is not their sum. *)
Lemma token_expiry_is_a_float_sum :
  (let E := Example.constant Example_token.expires_beyond_float in
   status_code (server E [] (token_request E)) = 200
   /\ (get_token E Example.start).1 = Raise OverflowError
   /\ _token_cache (get_token E Example.start).2 !! "jwt" = Some (VStr "tok-1")
   /\ _token_cache (get_token E Example.start).2 !! "exp" = None)
  /\ (let E := Example_token.at_a_tenth in
      (get_token E Example.start).1 = Ret (VStr "tok-1")
      /\ exists exp,
           _token_cache (get_token E Example.start).2 !! "exp" = Some (VFloat exp)
           /\ ~ (exp == Example_token.a_tenth + Example_token.two_tenths)%Q).
Proof.
  split.
  - repeat split; vm_compute; congruence.
  - split; [vm_compute; reflexivity|].
    eexists. split; [vm_compute; reflexivity|].
    vm_compute. congruence.
Qed.

(** C4, amended.  When [get_token] gets past the cache check (the
    cache is empty, or its token is no longer good for the skew) and
    the token endpoint answers 200 with a JSON object holding a string
    [access_token] and a number [expires_in] within the range of a
    float, the call returns that access token, and the cache afterwards
    maps ["jwt"] to it and ["exp"] to the float sum of the time read
    after the response and [expires_in]: with [expires_in] taken as a
    float ([seconds]), the double nearest to the exact sum of the two.
    One request was sent. *)
Theorem get_token_stores_token (E : env) (w w0 : world)
    (items : list (string * value)) (access_token : string)
    (expires_in : value) (seconds exp : Q) :
  cached_token E w = (Ret None, w0) ->
  status_code (server E (sent w) (token_request E)) = 200 ->
  body (server E (sent w) (token_request E)) = Some (VDict items) ->
  items_get "access_token" items = Some (VStr access_token) ->
  items_get "expires_in" items = Some expires_in ->
  to_float expires_in = Ret (VFloat seconds) ->
  round_double (clock E (clock_reads w0) + seconds) = Some exp ->
  get_token E w
  = (Ret (VStr access_token),
     World (<["exp" := VFloat exp]>
              (<["jwt" := VStr access_token]> (_token_cache w)))
           (sent w ++ [token_request E])
           (S (clock_reads w0))).
Proof.
  intros Hc Hstatus Hbody Htok Hexp Hnum Hsum.
  destruct (cached_token_world _ _ _ _ Hc) as [Hcache Hsent].
  unfold get_token, bind at 1. rewrite Hc.
  unfold bind, send, json, lift, cache_setitem, time, py_getitem, py_float_add.
  cbn. rewrite Hsent, Hstatus. cbn. rewrite Hbody, Htok. cbn.
  rewrite Hexp. cbn. rewrite Hnum, Hsum, Hcache. reflexivity.
Qed.

Lemma get_token_stores_token_witness :
  get_token (Example.constant Example.token_response) Example.start
  = (Ret (VStr "tok-1"),
     World (<["exp" := VFloat 4600]> (<["jwt" := VStr "tok-1"]> ∅))
           [token_request (Example.constant Example.token_response)] 1).
Proof.
  exact (get_token_stores_token
           (Example.constant Example.token_response) Example.start Example.start
           [("access_token", VStr "tok-1"); ("expires_in", VInt 3600)]
           "tok-1" (VInt 3600) 3600 4600
           eq_refl eq_refl eq_refl eq_refl eq_refl eq_refl eq_refl).
Defined.

(** C9. When [get_token] gets past the cache check and the token
    endpoint answers with a status other than 200, the call raises and
    the cache is what it was before the call; when the body is a JSON
    object the exception is the [ConnectionError] with the status, the
    reason and the provider's [error_description]. *)
Theorem get_token_failure_keeps_cache (E : env) (w w0 : world) :
  cached_token E w = (Ret None, w0) ->
  status_code (server E (sent w) (token_request E)) <> 200 ->
  exists (e : exn) (w' : world),
    get_token E w = (Raise e, w')
    /\ _token_cache w' = _token_cache w
    /\ sent w' = (sent w ++ [token_request E])%list
    /\ forall items,
         body (server E (sent w) (token_request E)) = Some (VDict items) ->
         e = ConnectionError
               (error_message E (server E (sent w) (token_request E))
                  (from_option id VNone (items_get "error_description" items))).
Proof.
  intros Hc Hstatus.
  destruct (cached_token_world _ _ _ _ Hc) as [Hcache Hsent].
  unfold get_token, bind at 1. rewrite Hc.
  unfold bind, send, json, lift, raise, py_get. cbn. rewrite Hsent.
  apply Z.eqb_neq in Hstatus. rewrite Hstatus. cbn.
  destruct (body (server E (sent w) (token_request E))) as [[]|] eqn:Hbody;
    cbn; eexists _, _; (split; [reflexivity|]); cbn;
    repeat split; try done; try congruence.
Qed.

Lemma get_token_failure_keeps_cache_witness :
  exists e w',
    get_token (Example.constant (Response 401 "Unauthorized" None None))
      (Example.logged_in 1100) = (Raise e, w')
    /\ _token_cache w' = _token_cache (Example.logged_in 1100).
Proof.
  destruct (get_token_failure_keeps_cache
              (Example.constant (Response 401 "Unauthorized" None None))
              (Example.logged_in 1100)
              (World (_token_cache (Example.logged_in 1100)) [] 1))
    as (e & w' & H & Hcache & _).
  - reflexivity.
  - discriminate.
  - exists e, w'. split; assumption.
Defined.

(** ** Arguments *)

Lemma str_truthy_given o : str_truthy o = true <-> given o.
Proof.
  unfold given. destruct o as [s|]; cbn.
  - rewrite negb_true_iff, String.eqb_neq. split.
    + intros H. exists s. done.
    + intros (s' & [= <-] & H). done.
  - split; [done|]. intros (s & H & _). done.
Qed.

Lemma sel_truthy_given o : sel_truthy o = true <-> given_sel o.
Proof.
  unfold given_sel. destruct o as [[s|l]|]; cbn.
  - rewrite negb_true_iff, String.eqb_neq. split.
    + intros H. left. exists s. done.
    + intros [(s' & [= <-] & H)|(l & H & _)]; done.
  - split.
    + intros H. right. exists l. split; [done|]. by destruct l.
    + intros [(s' & H & _)|(l' & [= <-] & H)]; [done|]. by destruct l.
  - split; [done|]. intros [(s & H & _)|(l & H & _)]; done.
Qed.

Lemma advanced_given q :
  advanced q = true
  <-> given (filter q) \/ given (search q) \/ given_sel (orderby q).
Proof.
  unfold advanced. rewrite !orb_true_iff.
  rewrite !str_truthy_given, sel_truthy_given. tauto.
Qed.

(** C7. [get_device] called with a non-empty [device_id] together with
    a non-empty [filter] or a non-empty [search] raises [ValueError]
    in the world it was called in: no clock reading, no cache access,
    no request. *)
Theorem get_device_exclusive_arguments (E : env) (fuel : nat)
    (device_id : option string) (q : query) (w : world) :
  given device_id ->
  given (filter q) \/ given (search q) ->
  get_device E fuel device_id q w
  = (Some (Raise (ValueError
       "Parameters device_id and filter|search are mutually exclusive.")), w).
Proof.
  intros Hid Hq. unfold get_device.
  apply str_truthy_given in Hid. rewrite Hid.
  rewrite <- !str_truthy_given, <- orb_true_iff in Hq. by rewrite Hq.
Qed.

Lemma get_device_exclusive_arguments_witness :
  get_device (Example.constant Example.token_response) 5 (Some "x")
    (Query None (Some "y") None None None false) Example.start
  = (Some (Raise (ValueError
       "Parameters device_id and filter|search are mutually exclusive.")),
     Example.start).
Proof.
  apply get_device_exclusive_arguments.
  - exists "x". split; [reflexivity | discriminate].
  - left. exists "y". split; [reflexivity | discriminate].
Defined.

(** ** One pass of the paging loop *)

Lemma fetch_all_test all top :
  all && bool_decide (top = None) = true <-> fetch_all all top.
Proof.
  unfold fetch_all. rewrite andb_true_iff, bool_decide_eq_true. tauto.
Qed.

(** A link with a cursor is a non-empty string, which is what the loop
    tests before it splits the link. *)
Lemma continuation_cursor_link r tok :
  continuation_cursor r = Some tok ->
  truthy (next_link r) = true /\ skiptoken_of (next_link r) = Ret (VStr tok).
Proof.
  unfold continuation_cursor, skiptoken_of.
  destruct (next_link r) as [| | | |link| | | |]; try done.
  intros H. rewrite H. split; [|done].
  destruct link; [done|reflexivity].
Qed.

Lemma no_cursor_no_token r :
  continuation_cursor r = None ->
  truthy (next_link r) = false \/ exists e, skiptoken_of (next_link r) = Raise e.
Proof.
  unfold continuation_cursor, skiptoken_of.
  destruct (next_link r) as [| | | |link| | | |]; eauto.
  intros ->. eauto.
Qed.

Lemma raise_request_failed_raises (E : env) (A : Type) (r : response) (w : world) :
  exists e, @raise_request_failed E A r w = (Raise e, w).
Proof.
  unfold raise_request_failed, bind, lift, json, py_get, raise.
  repeat case_match; simplify_eq/=; eauto.
Qed.

Lemma raise_request_failed_message (E : env) (A : Type) (r : response)
    (w : world) (message : value) :
  provider_message r = Some message ->
  @raise_request_failed E A r w
  = (Raise (ConnectionError (error_message E r message)), w).
Proof.
  unfold provider_message, raise_request_failed, bind, lift, json, py_get, raise.
  intros H. repeat case_match; simplify_eq/=; done.
Qed.

Section Pass.
Context (E : env) (default_page : value -> value) (url : string)
  (headers : gmap string value).

Local Abbreviation step_of params all top data w :=
  (page_step E default_page url headers params all top data w).
Local Abbreviation loop fuel params all top data w :=
  (page_loop E fuel default_page url headers params all top data w).

Lemma page_loop_unfold fuel params all top data w :
  loop (S fuel) params all top data w
  = match step_of params all top data w with
    | (Ret (Break data'), w') => (Some (Ret data'), w')
    | (Ret (Continue data' params'), w') => loop fuel params' all top data' w'
    | (Raise e, w') => (Some (Raise e), w')
    end.
Proof. reflexivity. Qed.

(** A response other than 200 ends the pass with an exception. *)
Lemma page_step_failed params all top data w :
  status_code (server E (sent w) (get_request url headers params)) <> 200 ->
  step_of params all top data w
  = raise_request_failed E
      (server E (sent w) (get_request url headers params))
      (after_send w (get_request url headers params)).
Proof.
  intros H. apply Z.eqb_neq in H.
  unfold page_step, bind at 1, send. cbn. fold (get_request url headers params).
  by rewrite H.
Qed.

(** A page whose link carries a cursor, in fetch-all mode: go round
    again with the cursor as [$skiptoken]. *)
Lemma page_step_continue params all top data w vs tok :
  let r := server E (sent w) (get_request url headers params) in
  status_code r = 200 -> page_values r = Some vs ->
  continuation_cursor r = Some tok -> fetch_all all top ->
  step_of params all top data w
  = (Ret (Continue (data ++ vs) (<["$skiptoken" := VStr tok]> params)),
     after_send w (get_request url headers params)).
Proof.
  intros r Hst Hvs Hcur Hall.
  destruct (continuation_cursor_link _ _ Hcur) as [Htruthy Htok].
  apply fetch_all_test in Hall.
  unfold page_step, bind at 1, send. cbn. fold (get_request url headers params).
  fold r. rewrite Hst. cbn.
  unfold page_values in Hvs. unfold next_link in Htruthy, Htok.
  unfold bind, lift, json, py_get, ret.
  destruct (body r) as [[| | | | | |items| |]|]; try done.
  destruct (items_get "value" items) as [[| | | | |l| | |]|]; try done.
  simplify_eq/=. by rewrite Htruthy, Hall, Htok.
Qed.

(** A page without a link, or any page outside fetch-all mode: leave
    the loop with the page's values added. *)
Lemma page_step_break params all top data w vs :
  let r := server E (sent w) (get_request url headers params) in
  status_code r = 200 -> page_values r = Some vs ->
  truthy (next_link r) = false \/ ~ fetch_all all top ->
  step_of params all top data w
  = (Ret (Break (data ++ vs)), after_send w (get_request url headers params)).
Proof.
  intros r Hst Hvs Hstop.
  assert (Hcond : truthy (next_link r) && (all && bool_decide (top = None)) = false).
  { apply andb_false_iff. destruct Hstop as [H|H]; [by left|right].
    apply not_true_is_false. by rewrite fetch_all_test. }
  unfold page_step, bind at 1, send. cbn. fold (get_request url headers params).
  fold r. rewrite Hst. cbn.
  unfold page_values in Hvs. unfold next_link in Hcond.
  unfold bind, lift, json, py_get, ret.
  destruct (body r) as [[| | | | | |items| |]|]; try done.
  destruct (items_get "value" items) as [[| | | | |l| | |]|]; try done.
  simplify_eq/=. by rewrite Hcond.
Qed.

(** A page with a link that carries no cursor, in fetch-all mode: the
    pass raises after the one request. *)
Lemma page_step_no_cursor params all top data w vs :
  let r := server E (sent w) (get_request url headers params) in
  status_code r = 200 -> page_values r = Some vs ->
  continuation_cursor r = None -> truthy (next_link r) = true ->
  fetch_all all top ->
  exists e, step_of params all top data w
            = (Raise e, after_send w (get_request url headers params)).
Proof.
  intros r Hst Hvs Hcur Htruthy Hall.
  destruct (no_cursor_no_token _ Hcur) as [H|[e He]]; [congruence|].
  apply fetch_all_test in Hall. exists e.
  unfold page_step, bind at 1, send. cbn. fold (get_request url headers params).
  fold r. rewrite Hst. cbn.
  unfold page_values in Hvs. unfold next_link in Htruthy, He.
  unfold bind, lift, json, py_get, ret.
  destruct (body r) as [[| | | | | |items| |]|]; try done.
  destruct (items_get "value" items) as [[| | | | |l| | |]|]; try done.
  simplify_eq/=. by rewrite Htruthy, Hall, He.
Qed.

(** Every pass sends exactly one request, the one built from the
    current [params], and leaves the cache and the clock alone. *)
Lemma page_step_world params all top data w o w' :
  step_of params all top data w = (o, w') ->
  w' = after_send w (get_request url headers params).
Proof.
  unfold page_step, raise_request_failed, bind, send, lift, raise, ret.
  cbn. fold (get_request url headers params).
  repeat (case_match; simplify_eq/=; try done); by intros [= <- <-].
Qed.

(** The loop only ever adds requests to the log. *)
Lemma page_loop_sent fuel params all top data w :
  sent w `prefix_of` sent (loop fuel params all top data w).2.
Proof.
  revert params data w. induction fuel as [|fuel IH]; intros params data w.
  - done.
  - rewrite page_loop_unfold.
    destruct (step_of params all top data w) as [[[d|d p]|e] w'] eqn:Hstep;
      apply page_step_world in Hstep; subst w'.
    + by apply prefix_app_r.
    + etrans; [|apply IH]. by apply prefix_app_r.
    + by apply prefix_app_r.
Qed.

Lemma page_loop_cache fuel params all top data w :
  _token_cache (loop fuel params all top data w).2 = _token_cache w.
Proof.
  revert params data w. induction fuel as [|fuel IH]; intros params data w.
  - done.
  - rewrite page_loop_unfold.
    destruct (step_of params all top data w) as [[[d|d p]|e] w'] eqn:Hstep;
      apply page_step_world in Hstep; subst w'; try done.
    by rewrite IH.
Qed.

(** A loop with fuel left sends the request built from [params] first. *)
Lemma page_loop_first_request fuel params all top data w :
  sent (loop (S fuel) params all top data w).2 !! length (sent w)
  = Some (get_request url headers params).
Proof.
  rewrite page_loop_unfold.
  destruct (step_of params all top data w) as [[[d|d p]|e] w'] eqn:Hstep;
    apply page_step_world in Hstep; subst w'.
  - by apply list_lookup_middle.
  - destruct (page_loop_sent fuel p all top d
                (after_send w (get_request url headers params))) as [k Hk].
    rewrite Hk. cbn. rewrite <- app_assoc. by apply list_lookup_middle.
  - by apply list_lookup_middle.
Qed.

End Pass.

(** A pass that does not go round again has sent one request. *)
Lemma page_loop_one_request (E : env) default_page url headers params all top
    data w fuel vs :
  let request := get_request url headers params in
  let r := server E (sent w) request in
  status_code r = 200 -> page_values r = Some vs ->
  ~ (is_Some (continuation_cursor r) /\ fetch_all all top) ->
  sent (page_loop E (S fuel) default_page url headers params all top data w).2
  = (sent w ++ [request])%list.
Proof.
  intros request r Hst Hvs Hno. rewrite page_loop_unfold.
  destruct (all && bool_decide (top = None)) eqn:Hall.
  - apply fetch_all_test in Hall.
    destruct (continuation_cursor r) as [tok|] eqn:Hcur.
    { exfalso. apply Hno. eauto. }
    destruct (truthy (next_link r)) eqn:Hlink.
    + destruct (page_step_no_cursor E default_page url headers params all top
                  data w vs Hst Hvs Hcur Hlink Hall) as [e He].
      by rewrite He.
    + by rewrite (page_step_break E default_page url headers params all top
                    data w vs Hst Hvs (or_introl Hlink)).
  - assert (Hnot : ~ fetch_all all top).
    { rewrite <- fetch_all_test. congruence. }
    by rewrite (page_step_break E default_page url headers params all top
                  data w vs Hst Hvs (or_intror Hnot)).
Qed.

(** Any pass of the loop that gets a page (status 200 with a [value]
    array): a second request follows if and only if the page carries a
    continuation cursor and the mode is fetch-all, and it repeats the
    parameters with the cursor as [$skiptoken]; in every other case the
    request of this pass is the last one. *)
Lemma page_loop_pass (E : env)
    (default_page : value -> value) (url : string)
    (headers params : gmap string value) (all : bool) (top : option Z)
    (data vs : list value) (w : world) (fuel : nat) :
  let request := get_request url headers params in
  let r := server E (sent w) request in
  let run := page_loop E (S (S fuel)) default_page url headers params
               all top data w in
  status_code r = 200 -> page_values r = Some vs ->
  sent run.2 !! length (sent w) = Some request
  /\ (is_Some (sent run.2 !! S (length (sent w)))
      <-> is_Some (continuation_cursor r) /\ fetch_all all top)
  /\ (forall tok, continuation_cursor r = Some tok -> fetch_all all top ->
        sent run.2 !! S (length (sent w))
        = Some (get_request url headers (<["$skiptoken" := VStr tok]> params)))
  /\ (~ (is_Some (continuation_cursor r) /\ fetch_all all top) ->
        sent run.2 = (sent w ++ [request])%list)
  /\ (truthy (next_link r) = false \/ ~ fetch_all all top ->
        run = (Some (Ret (data ++ vs)%list), after_send w request)).
Proof.
  intros request r run Hst Hvs.
  assert (Hnext : forall tok, continuation_cursor r = Some tok ->
            fetch_all all top ->
            sent run.2 !! S (length (sent w))
            = Some (get_request url headers (<["$skiptoken" := VStr tok]> params))).
  { intros tok Hcur Hall. unfold run. rewrite page_loop_unfold.
    rewrite (page_step_continue E default_page url headers params all top
               data w vs tok Hst Hvs Hcur Hall).
    rewrite <- page_loop_first_request with (E := E) (default_page := default_page)
      (fuel := fuel) (all := all) (top := top) (data := (data ++ vs)%list)
      (w := after_send w request).
    f_equal. cbn. rewrite length_app. cbn. lia. }
  assert (Hlast : ~ (is_Some (continuation_cursor r) /\ fetch_all all top) ->
            sent run.2 = (sent w ++ [request])%list).
  { intros Hno. by apply page_loop_one_request with (vs := vs). }
  split; [apply page_loop_first_request|].
  split; [|split; [exact Hnext|split; [exact Hlast|]]].
  - split.
    + intros Hsome.
      destruct (continuation_cursor r) as [tok|] eqn:Hcur;
        destruct (all && bool_decide (top = None)) eqn:Hall;
        try (apply fetch_all_test in Hall; by eauto);
        exfalso; rewrite Hlast in Hsome;
        try (rewrite lookup_ge_None_2 in Hsome;
             [by destruct Hsome | rewrite length_app; cbn; lia]).
      * intros [_ H]. apply fetch_all_test in H. congruence.
      * intros [[? ?] _]. done.
      * intros [[? ?] _]. done.
    + intros [[tok Hcur] Hall]. rewrite (Hnext tok Hcur Hall). eauto.
  - intros Hstop. unfold run. rewrite page_loop_unfold.
    by rewrite (page_step_break E default_page url headers params all top
                  data w vs Hst Hvs Hstop).
Qed.


(** ** The two list calls run the loop *)

Lemma as_list_world r : (as_list r).2 = r.2.
Proof. by destruct r as [[[]|] ?]. Qed.

Lemma list_owned_devices_loop (E : env) fuel user_id q w token w1 :
  get_token E w = (Ret token, w1) ->
  list_owned_devices E fuel user_id q w
  = as_list (page_loop E fuel (fun _ => VNone) (owned_devices_url E user_id)
               (odata_headers E token q) (odata_params q) (all q) (top q) [] w1).
Proof.
  intros H. unfold list_owned_devices. rewrite H.
  fold (owned_devices_url E user_id). unfold as_list.
  by repeat case_match.
Qed.

Lemma get_device_list_loop (E : env) fuel device_id q w token w1 :
  ~ given device_id ->
  get_token E w = (Ret token, w1) ->
  get_device E fuel device_id q w
  = as_list (page_loop E fuel (fun js => VList [js]) DEVICES_URL
               (odata_headers E token q) (odata_params q) (all q) (top q) [] w1).
Proof.
  intros Hid H. rewrite <- str_truthy_given in Hid.
  apply not_true_is_false in Hid.
  unfold get_device. rewrite Hid, H. cbn.
  unfold as_list. by repeat case_match.
Qed.

(** ** A server that answers page after page *)

Lemma answers_in_order_tail E n p pages :
  answers_in_order E n (p :: pages) -> answers_in_order E (S n) pages.
Proof.
  intros H k p' history request Hk Hlen.
  apply (H (S k)); [done | lia].
Qed.

Lemma login_then_pages_in_order (last : response) (pages rest : list response) :
  answers_in_order
    (Example.scripted (Example.token_response :: pages ++ rest) last) 1 pages.
Proof.
  intros k p history request Hk Hlen. cbn. rewrite Hlen. cbn.
  by apply nth_lookup_Some, lookup_app_l_Some.
Qed.

(** In fetch-all mode the loop walks through linked pages: after as
    many passes as there are pages it stands before the next request
    with all their values accumulated. *)
Lemma page_loop_follow (E : env) default_page url headers all top more :
  fetch_all all top ->
  forall params data w fuel,
    Forall linked_page more ->
    answers_in_order E (length (sent w)) more ->
    exists params' w',
      page_loop E (length more + fuel) default_page url headers params
        all top data w
      = page_loop E fuel default_page url headers params' all top
          (data ++ all_values more) w'
      /\ length (sent w') = (length (sent w) + length more)%nat
      /\ _token_cache w' = _token_cache w.
Proof.
  intros Hall. induction more as [|r more IH]; intros params data w fuel Hmore Hans.
  - exists params, w. unfold all_values. cbn. rewrite app_nil_r.
    split; [done | split; [lia | done]].
  - apply Forall_cons in Hmore as [(Hst & [vs Hvs] & [tok Hcur]) Hmore].
    pose proof (Hans 0%nat r (sent w) (get_request url headers params)
                  eq_refl ltac:(lia)) as Hr.
    cbn [length Nat.add]. rewrite page_loop_unfold.
    rewrite <- Hr in Hst, Hvs, Hcur.
    rewrite (page_step_continue E default_page url headers params all top
               data w vs tok Hst Hvs Hcur Hall).
    destruct (IH (<["$skiptoken" := VStr tok]> params) (data ++ vs)%list
                (after_send w (get_request url headers params)) fuel Hmore)
      as (params' & w' & Hrun & Hlen & Hcache).
    { cbn. rewrite length_app. cbn.
      replace (length (sent w) + 1)%nat with (S (length (sent w))) by lia.
      by eapply answers_in_order_tail. }
    exists params', w'. rewrite Hrun. split; [|split].
    + f_equal. unfold all_values. cbn. rewrite Hr in Hvs. rewrite Hvs. cbn.
      by rewrite <- app_assoc.
    + rewrite Hlen. cbn. rewrite length_app. cbn. lia.
    + by rewrite Hcache.
Qed.

Lemma page_loop_follow_mode (E : env) default_page url headers all top more
    params data w fuel :
  more = [] \/ fetch_all all top ->
  Forall linked_page more ->
  answers_in_order E (length (sent w)) more ->
  exists params' w',
    page_loop E (length more + fuel) default_page url headers params
      all top data w
    = page_loop E fuel default_page url headers params' all top
        (data ++ all_values more) w'
    /\ length (sent w') = (length (sent w) + length more)%nat
    /\ _token_cache w' = _token_cache w.
Proof.
  intros [->|Hall] Hmore Hans.
  - exists params, w. unfold all_values. cbn. rewrite app_nil_r.
    split; [done | split; [lia | done]].
  - by apply page_loop_follow.
Qed.

Lemma list_call_loop (E : env) fuel q w run token w1 :
  list_call E fuel q w run ->
  get_token E w = (Ret token, w1) ->
  exists default_page url,
    run = as_list (page_loop E fuel default_page url (odata_headers E token q)
                     (odata_params q) (all q) (top q) [] w1).
Proof.
  intros [[user_id ->]|(device_id & Hid & ->)] Htoken.
  - eexists _, _. by apply list_owned_devices_loop.
  - eexists _, _. by apply get_device_list_loop.
Qed.

(** C1 as stated fails.  A fetch-all call receives a page that
    contains an [@odata.nextLink], but the link carries no
    [$skiptoken=]: no further request is sent, although the server
    holds a next page; [next_link.split("$skiptoken=")[1]] raises
    [IndexError]. *)
Lemma link_without_skiptoken_not_followed :
  let E := Example.scripted [Example.token_response; Example_pages.skip_linked;
                             Example_pages.page3] Example_pages.unavailable in
  let q := Example_pages.fetch_everything in
  let run := list_owned_devices E 5 "user-1" q Example.start in
  status_code Example_pages.skip_linked = 200
  /\ page_values Example_pages.skip_linked = Some [Example_pages.device "a"]
  /\ next_link Example_pages.skip_linked
     = VStr "https://graph.microsoft.com/v1.0/devices?$skip=100"
  /\ fetch_all (all q) (top q)
  /\ length (sent run.2) = 2%nat
  /\ sent run.2 !! 2%nat = None
  /\ run.1 = Some (Raise IndexError).
Proof. repeat split; reflexivity. Qed.

(** C1, amended.  Take a paginated list call ([list_owned_devices], or
    [get_device] without a [device_id]) that has its token, and any
    page it receives: the pages [more] before it were fetched and
    linked on, and [r] is a page, status 200 with a [value] array.
    After [r] the call sends a further request if and only if [r]
    carries a continuation link with a [$skiptoken=] cursor in it and
    the call is in fetch-all mode ([all=True] and [top] is [None]);
    that request has the cursor as [$skiptoken].  In every other case
    the request [r] answered is the last one of the call; a call
    outside fetch-all mode (any explicit [top] included) fetches
    exactly one page and returns its values, link or no link. *)
Theorem paging_follows_link_iff_fetch_all (E : env) (fuel : nat) (q : query)
    (w w1 : world) (token : value) (more : list response) (r : response)
    (vs : list value) (run : option (outcome value) * world) :
  list_call E fuel q w run ->
  get_token E w = (Ret token, w1) ->
  Forall linked_page more ->
  more = [] \/ fetch_all (all q) (top q) ->
  answers_in_order E (length (sent w1)) (more ++ [r]) ->
  status_code r = 200 -> page_values r = Some vs ->
  (length more + 2 <= fuel)%nat ->
  let n := (length (sent w1) + length more)%nat in
  let follows := is_Some (continuation_cursor r) /\ fetch_all (all q) (top q) in
  (is_Some (sent run.2 !! S n) <-> follows)
  /\ (forall tok, continuation_cursor r = Some tok -> fetch_all (all q) (top q) ->
        exists request, sent run.2 !! S n = Some request
                        /\ params request !! "$skiptoken" = Some (VStr tok))
  /\ (~ follows -> length (sent run.2) = S n)
  /\ (~ fetch_all (all q) (top q) ->
        length (sent run.2) = S (length (sent w1))
        /\ run.1 = Some (Ret (VList vs))).
Proof.
  intros Hcall Htoken Hmore Hmode Hans Hst Hvs Hfuel n follows.
  destruct (list_call_loop E fuel q w run token w1 Hcall Htoken)
    as (default_page & url & ->).
  rewrite as_list_world.
  replace fuel with (length more + S (S (fuel - length more - 2)))%nat by lia.
  destruct (page_loop_follow_mode E default_page url (odata_headers E token q)
              (all q) (top q) more (odata_params q) [] w1
              (S (S (fuel - length more - 2))) Hmode Hmore)
    as (params' & w' & Hrun & Hlen & _).
  { intros k p history request Hk. apply Hans. by apply lookup_app_l_Some. }
  rewrite Hrun. fold n in Hlen.
  assert (Hr : server E (sent w')
                 (get_request url (odata_headers E token q) params') = r).
  { apply (Hans (length more)); [|done]. by rewrite list_lookup_middle. }
  rewrite <- Hr in Hst, Hvs.
  destruct (page_loop_pass E default_page url (odata_headers E token q) params'
              (all q) (top q) ([] ++ all_values more) vs w'
              (fuel - length more - 2) Hst Hvs)
    as (_ & Hiff & Hnext & Hlast & Hbreak).
  rewrite Hr, Hlen in *.
  split; [exact Hiff|split; [|split]].
  - intros tok Hcur Hall. eexists. split; [by apply Hnext|].
    cbn. by rewrite lookup_insert_eq.
  - intros Hno. rewrite (Hlast Hno), length_app, Hlen. cbn. lia.
  - intros Hnot. destruct Hmode as [->|Hall]; [|done].
    rewrite (Hbreak (or_intror Hnot)). cbn.
    split; [|done]. rewrite length_app. cbn. subst n. cbn in Hlen. lia.
Qed.

Lemma paging_follows_link_iff_fetch_all_witness :
  let run := list_owned_devices Example_pages.login_then_pages 4 "user-1"
               Example_pages.fetch_everything Example.start in
  exists request,
    sent run.2 !! 3%nat = Some request
    /\ params request !! "$skiptoken" = Some (VStr "p3").
Proof.
  intros run.
  destruct (paging_follows_link_iff_fetch_all Example_pages.login_then_pages 4
              Example_pages.fetch_everything Example.start
              (World (<["exp" := VFloat (1000 + 3600)]>
                        (<["jwt" := VStr "tok-1"]> ∅))
                     [token_request Example_pages.login_then_pages] 1)
              (VStr "tok-1") [Example_pages.page1] Example_pages.page2
              [Example_pages.device "c"] run) as (_ & H & _).
  - left. by exists "user-1".
  - reflexivity.
  - repeat constructor; cbn; eauto.
  - right. split; reflexivity.
  - exact (login_then_pages_in_order Example_pages.unavailable
             [Example_pages.page1; Example_pages.page2] [Example_pages.page3]).
  - reflexivity.
  - reflexivity.
  - cbn. lia.
  - apply (H "p3"); [reflexivity | split; reflexivity].
Defined.

(** With [top=50] the first page is all the call fetches, although it
    links to a second one. *)
Example explicit_top_fetches_one_page :
  let run := list_owned_devices Example_pages.login_then_pages 5 "user-1"
               (Query None None None None (Some 50) true) Example.start in
  run.1 = Some (Ret (VList [Example_pages.device "a"; Example_pages.device "b"]))
  /\ length (sent run.2) = 2%nat.
Proof. split; reflexivity. Qed.

(** C2, at the loop: linked pages followed by a final page give the
    concatenation of all the [value] arrays. *)
Lemma page_loop_concatenates (E : env) default_page url headers params
    all top more last data w fuel :
  fetch_all all top ->
  Forall linked_page more -> final_page last ->
  answers_in_order E (length (sent w)) (more ++ [last]) ->
  (length more < fuel)%nat ->
  exists w',
    page_loop E fuel default_page url headers params all top data w
    = (Some (Ret (data ++ all_values (more ++ [last]))%list), w')
    /\ length (sent w') = (length (sent w) + length (more ++ [last]))%nat
    /\ _token_cache w' = _token_cache w.
Proof.
  intros Hall Hmore (Hst & [vs Hvs] & Hlink) Hans Hfuel.
  destruct fuel as [|fuel]; [lia|].
  replace (S fuel) with (length more + S (fuel - length more))%nat by lia.
  destruct (page_loop_follow E default_page url headers all top more Hall
              params data w (S (fuel - length more)) Hmore)
    as (params' & w' & Hrun & Hlen & Hcache).
  { intros k p history request Hk. apply Hans. by apply lookup_app_l_Some. }
  rewrite Hrun, page_loop_unfold.
  assert (Hr : server E (sent w') (get_request url headers params') = last).
  { apply (Hans (length more)); [|done].
    by rewrite list_lookup_middle. }
  rewrite <- Hr in Hst, Hvs, Hlink.
  rewrite (page_step_break E default_page url headers params' all top
             (data ++ all_values more) w' vs Hst Hvs (or_introl Hlink)).
  eexists. split; [|split].
  - do 3 f_equal. unfold all_values. rewrite map_app, concat_app. cbn.
    rewrite Hr in Hvs. rewrite Hvs. cbn. by rewrite app_nil_r, app_assoc.
  - cbn. rewrite !length_app. cbn. lia.
  - done.
Qed.

(** C2. A fetch-all list call ([all=True], [top] left out) that has
    its token, against a server that answers its requests with a
    finite sequence of successful pages, each with a [value] array and
    all but the last with a continuation link, returns the
    concatenation of the pages' [value] arrays in page order (given
    fuel for one pass per page). *)
Theorem fetch_all_concatenates_pages (E : env) (fuel : nat) (q : query)
    (w w1 : world) (token : value) (more : list response) (last : response) :
  all q = true -> top q = None ->
  get_token E w = (Ret token, w1) ->
  Forall linked_page more -> final_page last ->
  answers_in_order E (length (sent w1)) (more ++ [last]) ->
  (length more < fuel)%nat ->
  (forall user_id,
     (list_owned_devices E fuel user_id q w).1
     = Some (Ret (VList (all_values (more ++ [last])))))
  /\ (forall device_id, ~ given device_id ->
        (get_device E fuel device_id q w).1
        = Some (Ret (VList (all_values (more ++ [last]))))).
Proof.
  intros Hall Htop Htoken Hmore Hlast Hans Hfuel.
  assert (Hmode : fetch_all (all q) (top q)) by done.
  split.
  - intros user_id. rewrite (list_owned_devices_loop E _ _ _ _ _ _ Htoken).
    destruct (page_loop_concatenates E (fun _ => VNone)
                (owned_devices_url E user_id) (odata_headers E token q)
                (odata_params q) (all q) (top q) more last [] w1 fuel
                Hmode Hmore Hlast Hans Hfuel) as (w' & -> & _).
    done.
  - intros device_id Hid.
    rewrite (get_device_list_loop E _ _ _ _ _ _ Hid Htoken).
    destruct (page_loop_concatenates E (fun js => VList [js])
                DEVICES_URL (odata_headers E token q)
                (odata_params q) (all q) (top q) more last [] w1 fuel
                Hmode Hmore Hlast Hans Hfuel) as (w' & -> & _).
    done.
Qed.

Lemma fetch_all_concatenates_pages_witness :
  (list_owned_devices Example_pages.login_then_pages 3 "user-1"
     Example_pages.fetch_everything Example.start).1
  = Some (Ret (VList [Example_pages.device "a"; Example_pages.device "b";
                      Example_pages.device "c"; Example_pages.device "d"])).
Proof.
  apply (fetch_all_concatenates_pages Example_pages.login_then_pages 3
           Example_pages.fetch_everything Example.start
           (World (<["exp" := VFloat (1000 + 3600)]> (<["jwt" := VStr "tok-1"]> ∅))
                  [token_request Example_pages.login_then_pages] 1)
           (VStr "tok-1")
           [Example_pages.page1; Example_pages.page2] Example_pages.page3).
  - reflexivity.
  - reflexivity.
  - reflexivity.
  - repeat constructor; cbn; eauto.
  - repeat constructor; cbn; eauto.
  - exact (login_then_pages_in_order Example_pages.unavailable
             [Example_pages.page1; Example_pages.page2; Example_pages.page3] []).
  - cbn. lia.
Defined.

(** ** Failed requests *)

(** An exception in the loop is the outcome of [get_device], whichever
    of its two modes it is in. *)
Lemma get_device_loop_raises (E : env) fuel device_id q w token w1 e w2 :
  ~ (given device_id /\ (given (filter q) \/ given (search q))) ->
  get_token E w = (Ret token, w1) ->
  page_loop E fuel (fun js => VList [js]) (device_url E device_id)
    (odata_headers E token q) (odata_params q) (all q) (top q) [] w1
  = (Some (Raise e), w2) ->
  get_device E fuel device_id q w = (Some (Raise e), w2).
Proof.
  intros Hok Htoken Hloop. unfold get_device.
  rewrite <- !str_truthy_given, <- orb_true_iff, <- andb_true_iff in Hok.
  apply not_true_is_false in Hok. rewrite Hok, Htoken.
  fold (device_url E device_id). by rewrite Hloop.
Qed.

Lemma raise_request_failed_error (E : env) (A : Type) (r : response) (w : world) :
  @raise_request_failed E A r w = (Raise (request_error E r), w).
Proof.
  unfold request_error, raise_request_failed, bind, lift, json, py_get, raise.
  destruct (body r) as [[| | | | | |items| |]|]; cbn; try done.
  destruct (items_get "error" items) as [[]|]; cbn; done.
Qed.

Lemma request_error_message (E : env) (r : response) (message : value) :
  provider_message r = Some message ->
  request_error E r = ConnectionError (error_message E r message).
Proof.
  unfold provider_message, request_error.
  intros H. repeat case_match; simplify_eq/=; done.
Qed.

(** A failed pass ends the loop with the exception of the response,
    whatever had been accumulated. *)
Lemma page_loop_failed (E : env) default_page url headers params all top
    data w fuel :
  let request := get_request url headers params in
  let r := server E (sent w) request in
  status_code r <> 200 ->
  page_loop E (S fuel) default_page url headers params all top data w
  = (Some (Raise (request_error E r)), after_send w request).
Proof.
  intros request r Hst. rewrite page_loop_unfold.
  rewrite page_step_failed by done.
  by rewrite (raise_request_failed_error E step).
Qed.

(** The same after any number of pages that were fetched and linked on. *)
Lemma page_loop_failed_after (E : env) default_page url headers params
    all top more failed data w fuel :
  fetch_all all top ->
  Forall linked_page more ->
  answers_in_order E (length (sent w)) (more ++ [failed]) ->
  status_code failed <> 200 ->
  (length more < fuel)%nat ->
  exists w',
    page_loop E fuel default_page url headers params all top data w
    = (Some (Raise (request_error E failed)), w').
Proof.
  intros Hall Hmore Hans Hst Hfuel.
  destruct fuel as [|fuel]; [lia|].
  replace (S fuel) with (length more + S (fuel - length more))%nat by lia.
  destruct (page_loop_follow E default_page url headers all top more Hall
              params data w (S (fuel - length more)) Hmore)
    as (params' & w' & Hrun & Hlen & Hcache).
  { intros k p history request Hk. apply Hans. by apply lookup_app_l_Some. }
  rewrite Hrun.
  assert (Hr : server E (sent w') (get_request url headers params') = failed).
  { apply (Hans (length more)); [|done]. by rewrite list_lookup_middle. }
  rewrite <- Hr in Hst.
  rewrite (page_loop_failed E default_page url headers params' all top
             _ w' _ Hst).
  rewrite Hr. eauto.
Qed.

(** C6 as stated fails.  [delete_device] takes the response 204, which
    is not 200, as its success and returns [True].  And a failed
    response whose body is not JSON (a 502 with a page of HTML) makes
    the call raise [JSONDecodeError], which carries neither the status
    nor the reason. *)
Lemma failed_response_without_connection_error :
  (let E := Example.constant (Response 204 "No Content" None None) in
   let w := Example.logged_in 5000 in
   status_code (server E (sent w) (delete_request E (VStr "tok-0") "device-1"))
     <> 200
   /\ (delete_device E "device-1" w).1 = Ret (VBool true))
  /\ (let E := Example.constant Example_pages.bad_gateway in
      let w := Example.logged_in 5000 in
      status_code Example_pages.bad_gateway <> 200
      /\ (list_owned_devices E 5 "user-1" Example_pages.fetch_everything w).1
         = Some (Raise JSONDecodeError)
      /\ (get_laps_password E "device-1" w).1 = Raise JSONDecodeError).
Proof.
  split; [split; [discriminate | reflexivity]|].
  split; [discriminate|]. split; reflexivity.
Qed.

(** C6, amended.  A Graph call whose response has a status other than
    the one the call takes as success (200 for [get_device],
    [list_owned_devices] and [get_laps_password], 204 for
    [delete_device]) raises and returns nothing: in the paging loop
    this holds on any pass, so also after pages have been accumulated,
    which are dropped.  The exception is [request_error] of the
    response: when the body is a JSON object whose [error] is absent
    or an object, it is the [ConnectionError] whose message holds the
    status code, the reason phrase and the provider's error message. *)
Theorem failed_request_raises (E : env) :
  (forall fuel q w w1 token more failed,
     get_token E w = (Ret token, w1) ->
     fetch_all (all q) (top q) \/ more = [] ->
     Forall linked_page more ->
     answers_in_order E (length (sent w1)) (more ++ [failed]) ->
     status_code failed <> 200 ->
     (length more < fuel)%nat ->
     (forall user_id,
        (list_owned_devices E fuel user_id q w).1
        = Some (Raise (request_error E failed)))
     /\ (forall device_id,
           ~ (given device_id /\ (given (filter q) \/ given (search q))) ->
           (get_device E fuel device_id q w).1
           = Some (Raise (request_error E failed))))
  /\ (forall device_id w w1 token,
        get_token E w = (Ret token, w1) ->
        let r := server E (sent w1) (laps_request E token device_id) in
        status_code r <> 200 ->
        get_laps_password E device_id w
        = (Raise (request_error E r),
           after_send w1 (laps_request E token device_id)))
  /\ (forall device_id w w1 token,
        get_token E w = (Ret token, w1) ->
        let r := server E (sent w1) (delete_request E token device_id) in
        status_code r <> 204 ->
        delete_device E device_id w
        = (Raise (request_error E r),
           after_send w1 (delete_request E token device_id)))
  /\ (forall r message,
        provider_message r = Some message ->
        request_error E r = ConnectionError (error_message E r message)).
Proof.
  split; [|split; [|split]].
  - intros fuel q w w1 token more failed Htoken Hmode Hmore Hans Hst Hfuel.
    assert (Hloop : forall default_page url, exists w',
              page_loop E fuel default_page url (odata_headers E token q)
                (odata_params q) (all q) (top q) [] w1
              = (Some (Raise (request_error E failed)), w')).
    { intros default_page url. destruct Hmode as [Hall| ->].
      - by eapply page_loop_failed_after.
      - destruct fuel as [|fuel]; [cbn in Hfuel; lia|].
        pose proof (Hans 0%nat failed (sent w1)
                      (get_request url (odata_headers E token q) (odata_params q))
                      eq_refl ltac:(lia)) as Hr.
        rewrite <- Hr in Hst.
        rewrite (page_loop_failed E default_page url _ _ _ _ _ w1 _ Hst).
        rewrite Hr. eauto. }
    split.
    + intros user_id. rewrite (list_owned_devices_loop E _ _ _ _ _ _ Htoken).
      destruct (Hloop (fun _ => VNone) (owned_devices_url E user_id)) as [w' ->].
      done.
    + intros device_id Hok.
      destruct (Hloop (fun js => VList [js]) (device_url E device_id))
        as [w' Hrun].
      by rewrite (get_device_loop_raises E _ _ _ _ _ _ _ _ Hok Htoken Hrun).
  - intros device_id w w1 token Htoken r Hst.
    unfold get_laps_password, bind at 1. rewrite Htoken.
    unfold bind at 1, send. cbn. fold (laps_request E token device_id). fold r.
    apply Z.eqb_neq in Hst. rewrite Hst. cbn.
    by rewrite (raise_request_failed_error E value).
  - intros device_id w w1 token Htoken r Hst.
    unfold delete_device, bind at 1. rewrite Htoken.
    unfold bind at 1, send. cbn. fold (delete_request E token device_id). fold r.
    apply Z.eqb_neq in Hst. rewrite Hst. cbn.
    by rewrite (raise_request_failed_error E value).
  - intros r message. apply request_error_message.
Qed.

Lemma failed_request_raises_witness :
  (list_owned_devices
     (Example.scripted [Example.token_response; Example_pages.page1;
                        Example_pages.unavailable] Example_pages.unavailable)
     3 "user-1" Example_pages.fetch_everything Example.start).1
  = Some (Raise (ConnectionError
       "Request failed (503 Service Unavailable) - try again later")).
Proof.
  pose (E := Example.scripted [Example.token_response; Example_pages.page1;
                               Example_pages.unavailable]
               Example_pages.unavailable).
  destruct (failed_request_raises E) as (H & _ & _ & Hmessage).
  destruct (H 3%nat Example_pages.fetch_everything Example.start
              (World (<["exp" := VFloat 4600]>
                        (<["jwt" := VStr "tok-1"]> ∅))
                     [token_request E] 1)
              (VStr "tok-1") [Example_pages.page1] Example_pages.unavailable)
    as [H1 _].
  - reflexivity.
  - left. split; reflexivity.
  - repeat constructor; cbn; eauto.
  - exact (login_then_pages_in_order Example_pages.unavailable
             [Example_pages.page1; Example_pages.unavailable] []).
  - discriminate.
  - cbn. lia.
  - transitivity (Some (Raise (A := value)
                           (request_error E Example_pages.unavailable)));
      [exact (H1 "user-1")|].
    exact (f_equal (fun e => Some (Raise (A := value) e))
             (Hmessage Example_pages.unavailable (VStr "try again later")
                eq_refl)).
Defined.

(** ** The query a list call sends *)

Lemma get_device_world (E : env) fuel device_id q w token w1 :
  ~ (given device_id /\ (given (filter q) \/ given (search q))) ->
  get_token E w = (Ret token, w1) ->
  (get_device E fuel device_id q w).2
  = (page_loop E fuel (fun js => VList [js]) (device_url E device_id)
       (odata_headers E token q) (odata_params q) (all q) (top q) [] w1).2.
Proof.
  intros Hok Htoken. unfold get_device.
  rewrite <- !str_truthy_given, <- orb_true_iff, <- andb_true_iff in Hok.
  apply not_true_is_false in Hok. rewrite Hok, Htoken.
  fold (device_url E device_id). by repeat case_match.
Qed.

(** C5 as stated fails: with [all=True] and no [top] the request
    carries [$top=999], and an empty [filter] string is passed on as
    [$filter]. *)
Lemma parameters_emitted_for_empty_inputs :
  let q := Query None (Some EmptyString) None None None true in
  (top q = None /\ emitted (odata_params q) "$top" = Some (VInt 999))
  /\ (~ given (filter q)
      /\ emitted (odata_params q) "$filter" = Some (VStr EmptyString)).
Proof.
  repeat split; try reflexivity.
  intros (s & [= <-] & H). done.
Qed.

Lemma emitted_joined (d : gmap string value) (k : string) (o : option str_or_list) :
  d !! k = Some (joined o) ->
  (is_Some (emitted d k) <-> given_sel o)
  /\ (forall v, o = Some v -> given_sel o ->
        emitted d k = Some (VStr (py_join "," (ensure_list v)))).
Proof.
  intros Hk. unfold emitted. rewrite Hk. unfold joined.
  destruct o as [v|].
  - destruct (sel_truthy (Some v)) eqn:Hv.
    + split.
      * split; [intros _; by apply sel_truthy_given | eauto].
      * by intros v0 [= <-] _.
    + split.
      * split; [by intros [? ?]|].
        intros Hg. apply sel_truthy_given in Hg. congruence.
      * intros v0 _ Hg. apply sel_truthy_given in Hg. congruence.
  - split; [|done]. split; [by intros [? ?]|].
    intros Hg. by apply sel_truthy_given in Hg.
Qed.

(** C5, amended.  The first request of [list_owned_devices] and of
    [get_device] carries the [params] and [headers] below, and in them
    - [$select] and [$orderby] are emitted exactly when the input is
      non-empty, as its strings joined by commas;
    - [$search] is emitted exactly when [search] is non-empty, wrapped
      in double quotes;
    - [$filter] is emitted with the caller's string when [filter] is
      non-empty, and not emitted when [filter] is left out;
    - [$top] is emitted with the caller's number when [top] is given,
      with 999 when [top] is left out and [all] is true, and not
      otherwise;
    - [$count=true] and the header [ConsistencyLevel: eventual] are
      emitted together, exactly when at least one of [filter],
      [search], [orderby] is non-empty. *)
Theorem odata_query_emitted (E : env) (token : value) (q : query) :
  let P := odata_params q in
  let H := odata_headers E token q in
  let advanced_query :=
    given (filter q) \/ given (search q) \/ given_sel (orderby q) in
  ((is_Some (emitted P "$select") <-> given_sel (select q))
   /\ (forall v, select q = Some v -> given_sel (select q) ->
         emitted P "$select" = Some (VStr (py_join "," (ensure_list v)))))
  /\ ((is_Some (emitted P "$orderby") <-> given_sel (orderby q))
      /\ (forall v, orderby q = Some v -> given_sel (orderby q) ->
            emitted P "$orderby" = Some (VStr (py_join "," (ensure_list v)))))
  /\ ((is_Some (emitted P "$search") <-> given (search q))
      /\ (forall s, search q = Some s -> s <> EmptyString ->
            emitted P "$search" = Some (VStr (dquote ++ s ++ dquote))))
  /\ ((forall f, filter q = Some f -> f <> EmptyString ->
         emitted P "$filter" = Some (VStr f))
      /\ (filter q = None -> emitted P "$filter" = None))
  /\ emitted P "$top"
     = match top q with
       | Some n => Some (VInt n)
       | None => if all q then Some (VInt 999) else None
       end
  /\ ((is_Some (emitted P "$count") <-> advanced_query)
      /\ (advanced_query -> emitted P "$count" = Some (VStr "true")))
  /\ ((is_Some (emitted H "ConsistencyLevel") <-> advanced_query)
      /\ (advanced_query ->
            emitted H "ConsistencyLevel" = Some (VStr "eventual")))
  /\ (forall fuel user_id w w1,
        get_token E w = (Ret token, w1) ->
        sent (list_owned_devices E (S fuel) user_id q w).2 !! length (sent w1)
        = Some (Request GET (owned_devices_url E user_id) H P ∅))
  /\ (forall fuel device_id w w1,
        ~ (given device_id /\ (given (filter q) \/ given (search q))) ->
        get_token E w = (Ret token, w1) ->
        sent (get_device E (S fuel) device_id q w).2 !! length (sent w1)
        = Some (Request GET (device_url E device_id) H P ∅)).
Proof.
  intros P H advanced_query.
  split; [by apply emitted_joined|].
  split; [by apply emitted_joined|].
  split; [|split; [|split; [|split; [|split; [|split]]]]].
  - unfold emitted, P, odata_params. simplify_map_eq.
    rewrite <- str_truthy_given. destruct (search q) as [s|]; cbn.
    + destruct (negb (String.eqb s EmptyString)) eqn:Hs; cbn.
      * split; [split; eauto|]. by intros ? [= <-] _.
      * split; [split; [by intros [? ?]|done]|].
        intros ? [= <-] Hne. apply String.eqb_neq in Hne.
        rewrite Hne in Hs. done.
    + split; [split; [by intros [? ?]|done]|done].
  - unfold emitted, P, odata_params. simplify_map_eq.
    split; [by intros f -> _ | by intros ->].
  - unfold emitted, P, odata_params. simplify_map_eq.
    destruct (top q); [done|]. by destruct (all q).
  - unfold advanced_query. rewrite <- advanced_given.
    unfold emitted, P, odata_params. simplify_map_eq.
    destruct (advanced q); cbn.
    + split; [split; eauto|done].
    + split; [split; [by intros [? ?]|done]|done].
  - unfold advanced_query. rewrite <- advanced_given.
    unfold emitted, H, odata_headers. simplify_map_eq.
    destruct (advanced q); cbn.
    + split; [split; eauto|done].
    + split; [split; [by intros [? ?]|done]|done].
  - intros fuel user_id w w1 Htoken.
    rewrite (list_owned_devices_loop E _ _ _ _ _ _ Htoken), as_list_world.
    apply page_loop_first_request.
  - intros fuel device_id w w1 Hok Htoken.
    rewrite (get_device_world E _ _ _ _ _ _ Hok Htoken).
    apply page_loop_first_request.
Qed.

Lemma odata_query_emitted_witness :
  let q := Query (Some (Strs ["id"; "displayName"])) None (Some "laptop")
             None None false in
  emitted (odata_params q) "$select" = Some (VStr "id,displayName")
  /\ emitted (odata_params q) "$search"
     = Some (VStr (dquote ++ "laptop" ++ dquote))
  /\ emitted (odata_params q) "$count" = Some (VStr "true")
  /\ emitted (odata_headers (Example.constant Example.token_response)
                (VStr "tok-0") q) "ConsistencyLevel"
     = Some (VStr "eventual").
Proof.
  intros q.
  destruct (odata_query_emitted (Example.constant Example.token_response)
              (VStr "tok-0") q)
    as ((_ & Hsel) & _ & (_ & Hsearch) & _ & _ & (_ & Hcount) & (_ & Hhdr) & _).
  split; [|split; [|split]].
  - apply (Hsel (Strs ["id"; "displayName"])); [reflexivity|].
    right. exists ["id"; "displayName"]. split; [reflexivity|discriminate].
  - apply (Hsearch "laptop"); [reflexivity|discriminate].
  - apply Hcount. right. left. exists "laptop". split; [reflexivity|discriminate].
  - apply Hhdr. right. left. exists "laptop". split; [reflexivity|discriminate].
Defined.

(** ** Base64 *)

(** A property of the numbers below [k], checked on each of them. *)
Lemma forall_below (P : N -> bool) (k : nat) :
  forallb P (map N.of_nat (seq 0 k)) = true ->
  forall n, (n < N.of_nat k)%N -> P n = true.
Proof.
  intros H n Hn. rewrite forallb_forall in H. apply H.
  apply in_map_iff. exists (N.to_nat n). split; [lia|].
  apply in_seq. lia.
Qed.

Lemma forall_below2 (P : N -> N -> bool) (k1 k2 : nat) :
  forallb (fun a => forallb (P a) (map N.of_nat (seq 0 k2)))
    (map N.of_nat (seq 0 k1)) = true ->
  forall a b, (a < N.of_nat k1)%N -> (b < N.of_nat k2)%N -> P a b = true.
Proof.
  intros H a b Ha Hb.
  apply (forall_below (P a) k2); [|done].
  by apply (forall_below (fun a => forallb (P a) (map N.of_nat (seq 0 k2))) k1).
Qed.

(** Every character of the alphabet has its value back and is not the
    padding character. *)
Lemma b64_value_char n :
  (n < 64)%N ->
  b64_value (b64_char n) = Some n /\ Ascii.eqb (b64_char n) "="%char = false.
Proof.
  intros Hn.
  pose (P := fun n => match b64_value (b64_char n) with
                      | Some m => N.eqb m n
                      | None => false
                      end && negb (Ascii.eqb (b64_char n) "="%char)).
  assert (H : P n = true).
  { apply (forall_below P 64); [by vm_compute | done]. }
  unfold P in H. apply andb_true_iff in H as [H1 H2].
  apply negb_true_iff in H2. split; [|done].
  destruct (b64_value (b64_char n)) as [m|]; [|done].
  apply N.eqb_eq in H1. by subst.
Qed.

(** The three bytes come back from the four values they were split into. *)
Lemma b64_first_byte a b :
  (a < 256)%N -> (b < 256)%N ->
  byte_of (N.lor (N.shiftl (a / 4) 2) (N.shiftr (a mod 4 * 16 + b / 16) 4))
  = ascii_of_N a.
Proof.
  intros Ha Hb.
  pose (P := fun a b =>
    N.eqb (N.lor (N.shiftl (a / 4) 2) (N.shiftr (a mod 4 * 16 + b / 16) 4) mod 256)
      a).
  assert (H : P a b = true).
  { apply (forall_below2 P 256 256); [by vm_compute | done | done]. }
  apply N.eqb_eq in H. unfold byte_of. by rewrite H.
Qed.

Lemma b64_second_byte a b c :
  (a < 256)%N -> (b < 256)%N -> (c < 256)%N ->
  byte_of (N.lor (N.shiftl (N.land (a mod 4 * 16 + b / 16) 15) 4)
                 (N.shiftr (b mod 16 * 4 + c / 64) 2))
  = ascii_of_N b.
Proof.
  intros Ha Hb Hc.
  assert (Hlow : N.land (a mod 4 * 16 + b / 16) 15 = (b / 16)%N).
  { pose (P := fun a b => N.eqb (N.land (a mod 4 * 16 + b / 16) 15) (b / 16)).
    assert (H : P a b = true).
    { apply (forall_below2 P 256 256); [by vm_compute | done | done]. }
    by apply N.eqb_eq in H. }
  rewrite Hlow.
  pose (P := fun b c =>
    N.eqb (N.lor (N.shiftl (b / 16) 4) (N.shiftr (b mod 16 * 4 + c / 64) 2) mod 256)
      b).
  assert (H : P b c = true).
  { apply (forall_below2 P 256 256); [by vm_compute | done | done]. }
  apply N.eqb_eq in H. unfold byte_of. by rewrite H.
Qed.

Lemma b64_third_byte b c :
  (b < 256)%N -> (c < 256)%N ->
  byte_of (N.lor (N.shiftl (N.land (b mod 16 * 4 + c / 64) 3) 6) (c mod 64))
  = ascii_of_N c.
Proof.
  intros Hb Hc.
  pose (P := fun b c =>
    N.eqb (N.lor (N.shiftl (N.land (b mod 16 * 4 + c / 64) 3) 6) (c mod 64) mod 256)
      c).
  assert (H : P b c = true).
  { apply (forall_below2 P 256 256); [by vm_compute | done | done]. }
  apply N.eqb_eq in H. unfold byte_of. by rewrite H.
Qed.

Lemma a2b_base64_data quad_pos leftchar pads out n rest :
  (n < 64)%N ->
  a2b_base64 quad_pos leftchar pads out (String (b64_char n) rest)
  = match quad_pos with
    | 0%nat => a2b_base64 1 n 0 out rest
    | 1%nat =>
        a2b_base64 2 (N.land n 15) 0
          (out ++ String (byte_of (N.lor (N.shiftl leftchar 2) (N.shiftr n 4)))
                         EmptyString) rest
    | 2%nat =>
        a2b_base64 3 (N.land n 3) 0
          (out ++ String (byte_of (N.lor (N.shiftl leftchar 4) (N.shiftr n 2)))
                         EmptyString) rest
    | _ =>
        a2b_base64 0 0 0
          (out ++ String (byte_of (N.lor (N.shiftl leftchar 6) n)) EmptyString)
          rest
    end.
Proof.
  intros Hn. destruct (b64_value_char n Hn) as [Hv Hpad].
  cbn [a2b_base64]. by rewrite Hpad, Hv.
Qed.

Lemma sextet_bounds a b c :
  (a < 256)%N -> (b < 256)%N -> (c < 256)%N ->
  (a / 4 < 64)%N /\ (a mod 4 * 16 + b / 16 < 64)%N
  /\ (b mod 16 * 4 + c / 64 < 64)%N /\ (c mod 64 < 64)%N.
Proof.
  intros Ha Hb Hc.
  pose proof (N.mod_upper_bound a 4). pose proof (N.mod_upper_bound b 16).
  pose proof (N.mod_upper_bound c 64).
  assert (a / 4 < 64)%N by (apply N.Div0.div_lt_upper_bound; lia).
  assert (b / 16 < 16)%N by (apply N.Div0.div_lt_upper_bound; lia).
  assert (c / 64 < 4)%N by (apply N.Div0.div_lt_upper_bound; lia).
  lia.
Qed.

Lemma string_app_cons (c : ascii) (s1 s2 : string) :
  String c s1 ++ s2 = String c (s1 ++ s2).
Proof. reflexivity. Qed.

Lemma string_app_assoc (s1 s2 s3 : string) : (s1 ++ s2) ++ s3 = s1 ++ (s2 ++ s3).
Proof.
  induction s1 as [|c s1 IH]; [done|].
  by rewrite !string_app_cons, IH.
Qed.

Lemma string_app_nil_r (s : string) : s ++ EmptyString = s.
Proof.
  induction s as [|c s IH]; [done|].
  by rewrite string_app_cons, IH.
Qed.

(** Decoding what [b64encode_bytes] wrote gives the bytes back. *)
Lemma a2b_base64_encode (l : list N) :
  Forall (fun n => (n < 256)%N) l ->
  forall out,
    a2b_base64 0 0 0 out (b64encode_bytes l)
    = Ret (out ++ string_of_list_ascii (map ascii_of_N l)).
Proof.
  assert (H3 : forall l : list N,
    (Forall (fun n => (n < 256)%N) l -> forall out,
       a2b_base64 0 0 0 out (b64encode_bytes l)
       = Ret (out ++ string_of_list_ascii (map ascii_of_N l)))
    /\ (forall a, Forall (fun n => (n < 256)%N) (a :: l) -> forall out,
          a2b_base64 0 0 0 out (b64encode_bytes (a :: l))
          = Ret (out ++ string_of_list_ascii (map ascii_of_N (a :: l))))
    /\ (forall a b, Forall (fun n => (n < 256)%N) (a :: b :: l) -> forall out,
          a2b_base64 0 0 0 out (b64encode_bytes (a :: b :: l))
          = Ret (out ++ string_of_list_ascii (map ascii_of_N (a :: b :: l))))).
  { clear l. intros l. induction l as [|c l (IH0 & IH1 & IH2)].
    - split; [|split].
      + intros _ out. cbn. by rewrite string_app_nil_r.
      + intros a Ha out. apply Forall_cons in Ha as [Ha _].
        destruct (sextet_bounds a 0 0 Ha) as (B0 & B1 & _); [lia..|].
        cbn [b64encode_bytes].
        replace (a mod 4 * 16)%N with (a mod 4 * 16 + 0 / 16)%N
          by (change (0 / 16)%N with 0%N; lia).
        rewrite !a2b_base64_data by done. cbn.
        rewrite b64_first_byte by lia. done.
      + intros a b Hab out. apply Forall_cons in Hab as [Ha Hb].
        apply Forall_cons in Hb as [Hb _].
        destruct (sextet_bounds a b 0 Ha Hb) as (B0 & B1 & B2 & _); [lia|].
        cbn [b64encode_bytes].
        replace (b mod 16 * 4)%N with (b mod 16 * 4 + 0 / 64)%N
          by (change (0 / 64)%N with 0%N; lia).
        rewrite !a2b_base64_data by done. cbn.
        rewrite b64_first_byte, (b64_second_byte a b 0) by lia.
        by rewrite string_app_assoc.
    - split; [exact (IH1 c)|split; [exact (fun a => IH2 a c)|]].
      intros a b Habc out. apply Forall_cons in Habc as [Ha Hb].
      apply Forall_cons in Hb as [Hb Hc]. apply Forall_cons in Hc as [Hc Hl].
      destruct (sextet_bounds a b c Ha Hb Hc) as (B0 & B1 & B2 & B3).
      cbn [b64encode_bytes]. rewrite !a2b_base64_data by done.
      rewrite b64_first_byte, b64_second_byte, b64_third_byte by done.
      rewrite (IH0 Hl). cbn. by rewrite !string_app_assoc. }
  apply H3.
Qed.

Lemma b64_char_ascii n : (N_of_ascii (b64_char n) <? 128)%N = true.
Proof.
  apply N.ltb_lt. unfold b64_char.
  destruct (N.ltb_spec n 26);
    [|destruct (N.ltb_spec n 52);
      [|destruct (N.ltb_spec n 62); [|destruct (N.eqb_spec n 62)]]];
    rewrite N_ascii_embedding; lia.
Qed.

Lemma b64encode_bytes_ascii l : is_ascii (b64encode_bytes l) = true.
Proof.
  assert (H3 : forall l : list N,
    is_ascii (b64encode_bytes l) = true
    /\ (forall a, is_ascii (b64encode_bytes (a :: l)) = true)
    /\ (forall a b, is_ascii (b64encode_bytes (a :: b :: l)) = true)).
  { intros l0. induction l0 as [|c l0 (IH0 & IH1 & IH2)].
    - repeat split; intros; unfold is_ascii; cbn [b64encode_bytes];
        cbn [list_ascii_of_string forallb]; by rewrite ?b64_char_ascii.
    - split; [exact (IH1 c)|split; [exact (fun a => IH2 a c)|]].
      intros a b. unfold is_ascii in *. cbn [b64encode_bytes].
      cbn [list_ascii_of_string forallb]. by rewrite !b64_char_ascii, IH0. }
  apply H3.
Qed.

(** [b64decode] inverts [b64encode]. *)
Lemma b64decode_b64encode (bytes : string) :
  b64decode (VStr (b64encode bytes)) = Ret bytes.
Proof.
  unfold b64decode, b64encode. rewrite b64encode_bytes_ascii.
  rewrite a2b_base64_encode.
  - cbn. rewrite map_map.
    rewrite (map_ext _ id) by (intros; apply ascii_N_embedding).
    by rewrite map_id, string_of_list_ascii_of_string.
  - apply Forall_forall. intros n Hn.
    apply list_elem_of_In, in_map_iff in Hn as (c & <- & _).
    apply N_ascii_bounded.
Qed.

(** ** The LAPS password *)

(** C8. Let [get_laps_password] have its token and receive a 200
    response.  If the [Content-Type] of the response does not indicate
    JSON, the call returns [None].  If it does and the first entry of
    [credentials] has a [passwordBase64] field, the call returns what
    that field decodes to: for a field holding the Base64 encoding of
    a UTF-8 text [password] the result is [password], and
    ["cGFzcw=="] gives ["pass"]. *)
Theorem laps_password_decoded (E : env) (device_id : string) (w w1 : world)
    (token : value) :
  get_token E w = (Ret token, w1) ->
  let request := laps_request E token device_id in
  let r := server E (sent w1) request in
  status_code r = 200 ->
  (indicates_json r = false ->
     get_laps_password E device_id w = (Ret VNone, after_send w1 request))
  /\ (forall items entry rest encoded bytes password,
        indicates_json r = true ->
        body r = Some (VDict items) ->
        items_get "credentials" items = Some (VList (VDict entry :: rest)) ->
        items_get "passwordBase64" entry = Some encoded ->
        b64decode encoded = Ret bytes -> utf8_decode bytes = Ret password ->
        get_laps_password E device_id w
        = (Ret (VStr password), after_send w1 request))
  /\ (forall items entry rest password,
        indicates_json r = true ->
        body r = Some (VDict items) ->
        items_get "credentials" items = Some (VList (VDict entry :: rest)) ->
        items_get "passwordBase64" entry = Some (VStr (b64encode password)) ->
        utf8_ok 0 128 191 password = true ->
        get_laps_password E device_id w
        = (Ret (VStr password), after_send w1 request))
  /\ b64decode (VStr "cGFzcw==") = Ret "pass".
Proof.
  intros Htoken request r Hst.
  assert (Hrun : get_laps_password E device_id w
    = (if negb (indicates_json r) then ret VNone
       else
         js <~ lift (json r) ;;
         data <~ lift (py_getitem js "credentials") ;;
         first <~ lift (first_item data) ;;
         encoded_pwd <~ lift (py_get first "passwordBase64" (VStr EmptyString)) ;;
         bytes <~ lift (b64decode encoded_pwd) ;;
         decoded_pwd <~ lift (utf8_decode bytes) ;;
         ret (VStr decoded_pwd)) (after_send w1 request)).
  { unfold get_laps_password, bind at 1. rewrite Htoken.
    unfold bind at 1, send. fold (laps_request E token device_id).
    fold request. fold r. by rewrite Hst. }
  assert (Hdecoded : forall items entry rest encoded bytes password,
        indicates_json r = true ->
        body r = Some (VDict items) ->
        items_get "credentials" items = Some (VList (VDict entry :: rest)) ->
        items_get "passwordBase64" entry = Some encoded ->
        b64decode encoded = Ret bytes -> utf8_decode bytes = Ret password ->
        get_laps_password E device_id w
        = (Ret (VStr password), after_send w1 request)).
  { intros items entry rest encoded bytes password Hjson Hbody Hcred Hpwd
      Hb64 Hutf8.
    rewrite Hrun, Hjson. unfold bind, lift, json, ret, py_getitem, py_get.
    cbn. rewrite Hbody, Hcred. cbn. rewrite Hpwd. cbn.
    by rewrite Hb64, Hutf8. }
  split; [|split; [exact Hdecoded|split; [|reflexivity]]].
  - intros Hjson. by rewrite Hrun, Hjson.
  - intros items entry rest password Hjson Hbody Hcred Hpwd Hutf8.
    apply (Hdecoded items entry rest (VStr (b64encode password)) password);
      try done.
    + apply b64decode_b64encode.
    + unfold utf8_decode. by rewrite Hutf8.
Qed.

Lemma laps_password_decoded_witness :
  (get_laps_password Example_laps.with_password "device-1"
     (Example.logged_in 5000)).1 = Ret (VStr "pass").
Proof.
  destruct (laps_password_decoded Example_laps.with_password "device-1"
              (Example.logged_in 5000)
              (World (_token_cache (Example.logged_in 5000)) [] 1)
              (VStr "tok-0") eq_refl eq_refl) as (_ & _ & H & _).
  rewrite (H [("id", VStr "device-1");
              ("credentials",
               VList [VDict [("accountName", VStr "Administrator");
                             ("passwordBase64", VStr "cGFzcw==")]])]
             [("accountName", VStr "Administrator");
              ("passwordBase64", VStr "cGFzcw==")] [] "pass");
    reflexivity.
Defined.

(** C10. When [get_laps_password] has its token and receives a 200
    JSON response whose [credentials] array has a first entry without
    a [passwordBase64] field, the call returns the empty string, not
    [None]. *)
Theorem laps_password_missing_is_empty (E : env) (device_id : string)
    (w w1 : world) (token : value) (items entry : list (string * value))
    (rest : list value) :
  get_token E w = (Ret token, w1) ->
  let request := laps_request E token device_id in
  let r := server E (sent w1) request in
  status_code r = 200 ->
  indicates_json r = true ->
  body r = Some (VDict items) ->
  items_get "credentials" items = Some (VList (VDict entry :: rest)) ->
  items_get "passwordBase64" entry = None ->
  get_laps_password E device_id w
  = (Ret (VStr EmptyString), after_send w1 request)
  /\ VStr EmptyString <> VNone.
Proof.
  intros Htoken request r Hst Hjson Hbody Hcred Hpwd. split; [|done].
  unfold get_laps_password, bind at 1. rewrite Htoken.
  unfold bind at 1, send. fold (laps_request E token device_id).
  fold request. fold r. rewrite Hst.
  change (negb (200 =? 200)) with false. cbv iota.
  fold (indicates_json r). rewrite Hjson.
  unfold bind, lift, json, ret, py_getitem, py_get.
  cbn. rewrite Hbody, Hcred. cbn. by rewrite Hpwd.
Qed.

Lemma laps_password_missing_is_empty_witness :
  get_laps_password Example_laps.without_password "device-1"
    (Example.logged_in 5000)
  = (Ret (VStr EmptyString),
     after_send (World (_token_cache (Example.logged_in 5000)) [] 1)
       (laps_request Example_laps.without_password (VStr "tok-0") "device-1")).
Proof.
  apply (laps_password_missing_is_empty Example_laps.without_password
           "device-1" (Example.logged_in 5000)
           (World (_token_cache (Example.logged_in 5000)) [] 1) (VStr "tok-0")
           [("id", VStr "device-1");
            ("credentials", VList [VDict [("accountName", VStr "Administrator")]])]
           [("accountName", VStr "Administrator")] []
           eq_refl eq_refl eq_refl eq_refl eq_refl eq_refl).
Defined.

(** * Further properties *)

(** ** More on the token cache *)

(** A cached token that is good for the skew, the bound included, is
    what the cache check finds. *)
Lemma cached_token_fresh (E : env) w jwt exp :
  _token_cache w !! "jwt" = Some jwt ->
  _token_cache w !! "exp" = Some (VFloat exp) ->
  (clock E (clock_reads w) + 300 <= exp)%Q ->
  cached_token E w = (Ret (Some jwt), after_clock w).
Proof.
  intros Hjwt Hexp Hle. unfold cached_token, bind.
  rewrite cache_nonempty_spec.
  rewrite bool_decide_eq_false_2 by (intros H0; rewrite H0 in Hexp; done).
  cbn. unfold cache_getitem. rewrite Hexp. cbn.
  assert (Hb : Qle_bool (clock E (clock_reads w) + CLOCK_SKEW_SECONDS) exp = true)
    by apply Qle_bool_iff, Hle.
  rewrite Hb. cbn. by rewrite Hjwt.
Qed.

(** Past the cache check, [get_token] sends the token request and
    nothing else, whatever the answer is. *)
Lemma get_token_request_sent (E : env) w w0 :
  cached_token E w = (Ret None, w0) ->
  sent (get_token E w).2 = (sent w ++ [token_request E])%list.
Proof.
  intros Hc. destruct (cached_token_world _ _ _ _ Hc) as [_ Hsent].
  unfold get_token, bind at 1. rewrite Hc.
  unfold bind, send, json, lift, raise, cache_setitem, time, py_getitem,
    py_get, py_float_add.
  cbn. rewrite Hsent.
  repeat (case_match; simplify_eq/=; try done).
Qed.

(** [get_token] sends at most one request, the token request. *)
Lemma get_token_at_most_one_request (E : env) w :
  sent (get_token E w).2 = sent w
  \/ sent (get_token E w).2 = (sent w ++ [token_request E])%list.
Proof.
  destruct (cached_token E w) as [[[jwt|]|e] w0] eqn:Hc.
  - left. destruct (cached_token_world _ _ _ _ Hc) as [_ Hsent].
    unfold get_token, bind. by rewrite Hc.
  - right. by eapply get_token_request_sent.
  - left. destruct (cached_token_world _ _ _ _ Hc) as [_ Hsent].
    unfold get_token, bind. by rewrite Hc.
Qed.

(** X3. Whenever [get_token] returns, what it returns is what the
    cache then holds under ["jwt"], and the cache has an expiry under
    ["exp"]; the call has sent no request or the token request, never
    more. *)
Theorem get_token_returns_cached (E : env) (w w' : world) (token : value) :
  get_token E w = (Ret token, w') ->
  _token_cache w' !! "jwt" = Some token
  /\ is_Some (_token_cache w' !! "exp")
  /\ (sent w' = sent w \/ sent w' = (sent w ++ [token_request E])%list).
Proof.
  intros Hrun.
  split; [|split].
  - revert Hrun.
    unfold get_token, cached_token, bind, cache_nonempty, cache_getitem, send,
      json, lift, raise, ret, cache_setitem, time, py_getitem, py_get, py_ge,
      py_float_add.
    repeat (case_match; simplify_eq/=; try done);
      intros [= <- <-]; cbn; simplify_map_eq; done.
  - revert Hrun.
    unfold get_token, cached_token, bind, cache_nonempty, cache_getitem, send,
      json, lift, raise, ret, cache_setitem, time, py_getitem, py_get, py_ge,
      py_float_add.
    repeat (case_match; simplify_eq/=; try done);
      intros [= <- <-]; cbn; simplify_map_eq; eauto.
  - pose proof (get_token_at_most_one_request E w) as H.
    by rewrite Hrun in H.
Qed.

Lemma get_token_returns_cached_witness :
  exists w',
    get_token (Example.constant Example.token_response) Example.start
    = (Ret (VStr "tok-1"), w')
    /\ _token_cache w' !! "jwt" = Some (VStr "tok-1").
Proof.
  eexists. split; [reflexivity|].
  apply (get_token_returns_cached (Example.constant Example.token_response)
           Example.start _ (VStr "tok-1") eq_refl).
Defined.

(** X4. Two calls in a row: when the first call fetches a token and
    stores an expiry that lies more than 300 seconds after the time of
    the second call, the second call returns the same token and sends
    nothing. *)
Theorem get_token_twice (E : env) (w w0 : world)
    (items : list (string * value)) (access_token : string)
    (expires_in : value) (seconds exp : Q) :
  cached_token E w = (Ret None, w0) ->
  status_code (server E (sent w) (token_request E)) = 200 ->
  body (server E (sent w) (token_request E)) = Some (VDict items) ->
  items_get "access_token" items = Some (VStr access_token) ->
  items_get "expires_in" items = Some expires_in ->
  to_float expires_in = Ret (VFloat seconds) ->
  round_double (clock E (clock_reads w0) + seconds) = Some exp ->
  (clock E (S (clock_reads w0)) + 300 < exp)%Q ->
  exists w1,
    get_token E w = (Ret (VStr access_token), w1)
    /\ get_token E w1 = (Ret (VStr access_token), after_clock w1)
    /\ sent w1 = (sent w ++ [token_request E])%list.
Proof.
  intros Hc Hstatus Hbody Htok Hexp Hnum Hsum Hgood.
  destruct (cached_token_world _ _ _ _ Hc) as [Hcache Hsent].
  eexists. split; [|split].
  - unfold get_token, bind at 1. rewrite Hc.
    unfold bind, send, json, lift, cache_setitem, time, py_getitem, py_float_add.
    cbn. rewrite Hsent, Hstatus. cbn. rewrite Hbody, Htok. cbn.
    rewrite Hexp. cbn. rewrite Hnum, Hsum. reflexivity.
  - unfold get_token, bind.
    erewrite cached_token_fresh;
      [reflexivity| | |apply Qlt_le_weak; exact Hgood].
    + cbn. by simplify_map_eq.
    + cbn. by simplify_map_eq.
  - reflexivity.
Qed.

Lemma get_token_twice_witness :
  exists w1,
    get_token Example_token.ticking Example.start = (Ret (VStr "tok-1"), w1)
    /\ get_token Example_token.ticking w1
       = (Ret (VStr "tok-1"), after_clock w1).
Proof.
  destruct (get_token_twice Example_token.ticking Example.start Example.start
              [("access_token", VStr "tok-1"); ("expires_in", VInt 3600)]
              "tok-1" (VInt 3600) 3600 4600
              eq_refl eq_refl eq_refl eq_refl eq_refl eq_refl eq_refl eq_refl)
    as (w1 & H1 & H2 & _).
  exists w1. split; assumption.
Defined.

(** A cache that has a key but no ["exp"] stops [get_token] at the
    cache check. *)
Lemma get_token_without_exp (E : env) w :
  _token_cache w <> ∅ -> _token_cache w !! "exp" = None ->
  get_token E w = (Raise (KeyError "exp"), w).
Proof.
  intros Hne Hexp. unfold get_token, cached_token, bind.
  rewrite cache_nonempty_spec. rewrite bool_decide_eq_false_2 by done.
  cbn. unfold cache_getitem. by rewrite Hexp.
Qed.

(** X5. A token response without [expires_in] leaves the cache
    half-written.  From an empty cache, a 200 response that has
    [access_token] but no [expires_in] makes [get_token] raise
    [KeyError] after the token was stored under ["jwt"]; from then on
    every call of [get_token] raises [KeyError] at the cache check,
    without sending a request and without repairing the cache. *)
Theorem token_without_expiry_blocks_cache (E : env) (w : world)
    (items : list (string * value)) (access_token : value) :
  _token_cache w = ∅ ->
  status_code (server E (sent w) (token_request E)) = 200 ->
  body (server E (sent w) (token_request E)) = Some (VDict items) ->
  items_get "access_token" items = Some access_token ->
  items_get "expires_in" items = None ->
  exists w1,
    get_token E w = (Raise (KeyError "expires_in"), w1)
    /\ _token_cache w1 = {[ "jwt" := access_token ]}
    /\ forall E', get_token E' w1 = (Raise (KeyError "exp"), w1).
Proof.
  intros Hempty Hstatus Hbody Htok Hexp.
  eexists. split; [|split].
  - unfold get_token, bind at 1. rewrite (cached_token_empty E w Hempty).
    unfold bind, send, json, lift, cache_setitem, time, py_getitem, py_float_add.
    cbn. rewrite Hstatus. cbn. rewrite Hbody, Htok. cbn.
    rewrite Hexp. reflexivity.
  - cbn. rewrite Hempty. apply insert_empty.
  - intros E'. apply get_token_without_exp; cbn; rewrite Hempty.
    + apply insert_non_empty.
    + by simplify_map_eq.
Qed.

Lemma token_without_expiry_blocks_cache_witness :
  exists w1,
    get_token (Example.constant Example_token.without_expiry) Example.start
    = (Raise (KeyError "expires_in"), w1)
    /\ get_token (Example.constant Example.token_response) w1
       = (Raise (KeyError "exp"), w1).
Proof.
  destruct (token_without_expiry_blocks_cache
              (Example.constant Example_token.without_expiry) Example.start
              [("access_token", VStr "tok-1")] (VStr "tok-1")
              eq_refl eq_refl eq_refl eq_refl eq_refl)
    as (w1 & H1 & _ & H2).
  exists w1. split; [exact H1 | apply H2].
Defined.

(** ** More on the paging loop *)

Lemma get_device_loop (E : env) fuel device_id q w token w1 :
  compatible device_id q ->
  get_token E w = (Ret token, w1) ->
  get_device E fuel device_id q w
  = as_device device_id
      (page_loop E fuel (fun js => VList [js]) (device_url E device_id)
         (odata_headers E token q) (odata_params q) (all q) (top q) [] w1).
Proof.
  intros Hok Htoken. unfold compatible in Hok. unfold get_device.
  rewrite <- !str_truthy_given, <- orb_true_iff, <- andb_true_iff in Hok.
  apply not_true_is_false in Hok. rewrite Hok, Htoken.
  fold (device_url E device_id). unfold as_device. by repeat case_match.
Qed.

Lemma as_device_world device_id r : (as_device device_id r).2 = r.2.
Proof. destruct r as [[[]|] ?]; cbn; by repeat case_match. Qed.

(** The loop goes round again only in fetch-all mode, and then with
    the old parameters and a [$skiptoken]. *)
Lemma page_step_continue_inv (E : env) default_page url headers params all top
    data w data' params' w' :
  page_step E default_page url headers params all top data w
  = (Ret (Continue data' params'), w') ->
  fetch_all all top
  /\ exists skiptoken, params' = <["$skiptoken" := skiptoken]> params.
Proof.
  unfold page_step, raise_request_failed, bind, send, lift, raise, ret, json,
    py_get.
  intros Hrun.
  repeat (case_match; simplify_eq/=; try done).
  split; [|eauto].
  apply fetch_all_test. by eapply andb_prop.
Qed.

(** All the requests of the loop ask the same query. *)
Lemma page_loop_same_query (E : env) default_page url headers params0 all top
    fuel :
  forall params data w,
    (forall k, k <> "$skiptoken" -> params !! k = params0 !! k) ->
    exists requests,
      sent (page_loop E fuel default_page url headers params all top data w).2
      = (sent w ++ requests)%list
      /\ Forall (same_query url headers params0) requests.
Proof.
  induction fuel as [|fuel IH]; intros params data w Hsame.
  - exists []. cbn. by rewrite app_nil_r.
  - rewrite page_loop_unfold.
    destruct (page_step E default_page url headers params all top data w)
      as [[[d|d p]|e] w'] eqn:Hstep.
    + apply page_step_world in Hstep as ->.
      exists [get_request url headers params]. split; [done|].
      repeat constructor; done.
    + pose proof (page_step_continue_inv _ _ _ _ _ _ _ _ _ _ _ _ Hstep)
        as (_ & skiptoken & ->).
      apply page_step_world in Hstep as ->.
      destruct (IH (<["$skiptoken" := skiptoken]> params) d
                  (after_send w (get_request url headers params)))
        as (requests & Hsent & Hall).
      { intros k Hk. rewrite lookup_insert_ne by done. by apply Hsame. }
      exists (get_request url headers params :: requests).
      rewrite Hsent. cbn. rewrite <- app_assoc. split; [done|].
      constructor; [|done]. repeat split; done.
    + apply page_step_world in Hstep as ->.
      exists [get_request url headers params]. split; [done|].
      repeat constructor; done.
Qed.

(** X6. A paged call asks the same query on every page: after the
    token is obtained, all the requests of [list_owned_devices] and of
    [get_device] are GETs of the one URL with the one set of headers
    (the one token), and with the OData parameters the call started
    with; from page to page only [$skiptoken] is added or changed. *)
Theorem paged_call_repeats_query (E : env) (fuel : nat) (q : query)
    (w w1 : world) (token : value) :
  get_token E w = (Ret token, w1) ->
  (forall user_id, exists requests,
     sent (list_owned_devices E fuel user_id q w).2 = (sent w1 ++ requests)%list
     /\ Forall (same_query (owned_devices_url E user_id)
                  (odata_headers E token q) (odata_params q)) requests)
  /\ (forall device_id, compatible device_id q -> exists requests,
        sent (get_device E fuel device_id q w).2 = (sent w1 ++ requests)%list
        /\ Forall (same_query (device_url E device_id)
                     (odata_headers E token q) (odata_params q)) requests).
Proof.
  intros Htoken. split.
  - intros user_id.
    rewrite (list_owned_devices_loop E _ _ _ _ _ _ Htoken), as_list_world.
    by apply page_loop_same_query.
  - intros device_id Hok.
    rewrite (get_device_loop E _ _ _ _ _ _ Hok Htoken), as_device_world.
    by apply page_loop_same_query.
Qed.

Lemma paged_call_repeats_query_witness :
  exists requests,
    sent (list_owned_devices Example_pages.login_then_pages 5 "user-1"
            Example_pages.fetch_everything Example.start).2
    = ([token_request Example_pages.login_then_pages] ++ requests)%list
    /\ Forall (same_query
                 (owned_devices_url Example_pages.login_then_pages "user-1")
                 (odata_headers Example_pages.login_then_pages (VStr "tok-1")
                    Example_pages.fetch_everything)
                 (odata_params Example_pages.fetch_everything)) requests.
Proof.
  destruct (paged_call_repeats_query Example_pages.login_then_pages 5
              Example_pages.fetch_everything Example.start
              (World (<["exp" := VFloat (1000 + 3600)]>
                        (<["jwt" := VStr "tok-1"]> ∅))
                     [token_request Example_pages.login_then_pages] 1)
              (VStr "tok-1") eq_refl) as [H _].
  exact (H "user-1").
Defined.

(** Outside fetch-all mode a pass never goes round again. *)
Lemma page_loop_single (E : env) default_page url headers params all top
    data w fuel :
  ~ fetch_all all top ->
  exists o,
    page_loop E (S fuel) default_page url headers params all top data w
    = (Some o, after_send w (get_request url headers params)).
Proof.
  intros Hnot. rewrite page_loop_unfold.
  destruct (page_step E default_page url headers params all top data w)
    as [[[d|d p]|e] w'] eqn:Hstep.
  - apply page_step_world in Hstep as ->. eauto.
  - apply page_step_continue_inv in Hstep as [Hall _]. done.
  - apply page_step_world in Hstep as ->. eauto.
Qed.

(** X7. A call that is not in fetch-all mode ([all] false, or a [top]
    given) ends after exactly one Graph request, whatever the server
    answers: it returns or raises, and never asks for a second page. *)
Theorem call_without_fetch_all_sends_one_request (E : env) (fuel : nat)
    (q : query) (w w1 : world) (token : value) :
  get_token E w = (Ret token, w1) ->
  ~ fetch_all (all q) (top q) ->
  (forall user_id, exists o,
     list_owned_devices E (S fuel) user_id q w
     = (Some o, after_send w1 (get_request (owned_devices_url E user_id)
                                  (odata_headers E token q) (odata_params q))))
  /\ (forall device_id, compatible device_id q -> exists o,
        get_device E (S fuel) device_id q w
        = (Some o, after_send w1 (get_request (device_url E device_id)
                                     (odata_headers E token q) (odata_params q)))).
Proof.
  intros Htoken Hnot. split.
  - intros user_id. rewrite (list_owned_devices_loop E _ _ _ _ _ _ Htoken).
    destruct (page_loop_single E (fun _ => VNone) (owned_devices_url E user_id)
                (odata_headers E token q) (odata_params q) (all q) (top q)
                [] w1 fuel Hnot) as [[d|e] ->]; cbn; eauto.
  - intros device_id Hok. rewrite (get_device_loop E _ _ _ _ _ _ Hok Htoken).
    destruct (page_loop_single E (fun js => VList [js]) (device_url E device_id)
                (odata_headers E token q) (odata_params q) (all q) (top q)
                [] w1 fuel Hnot) as [[d|e] ->]; cbn; [|eauto].
    destruct (str_truthy device_id); eauto.
Qed.

Lemma call_without_fetch_all_sends_one_request_witness :
  exists o,
    list_owned_devices Example_pages.login_then_pages 7 "user-1"
      (Query None None None None (Some 50) true) Example.start
    = (Some o,
       after_send
         (World (<["exp" := VFloat (1000 + 3600)]> (<["jwt" := VStr "tok-1"]> ∅))
                [token_request Example_pages.login_then_pages] 1)
         (get_request (owned_devices_url Example_pages.login_then_pages "user-1")
            (odata_headers Example_pages.login_then_pages (VStr "tok-1")
               (Query None None None None (Some 50) true))
            (odata_params (Query None None None None (Some 50) true)))).
Proof.
  destruct (call_without_fetch_all_sends_one_request
              Example_pages.login_then_pages 6
              (Query None None None None (Some 50) true) Example.start
              (World (<["exp" := VFloat (1000 + 3600)]>
                        (<["jwt" := VStr "tok-1"]> ∅))
                     [token_request Example_pages.login_then_pages] 1)
              (VStr "tok-1") eq_refl) as [H _].
  - intros [_ Htop]. discriminate Htop.
  - exact (H "user-1").
Defined.

(** One pass over a 200 response with a JSON object body, when the loop
    does not go on: the loop ends with what iterating over the page
    gives. *)
Lemma page_loop_last_page (E : env) default_page url headers params all top
    data w fuel items page_items :
  let r := server E (sent w) (get_request url headers params) in
  status_code r = 200 -> body r = Some (VDict items) ->
  py_iter (from_option id (default_page (VDict items)) (items_get "value" items))
  = page_items ->
  truthy (next_link r) = false \/ ~ fetch_all all top ->
  page_loop E (S fuel) default_page url headers params all top data w
  = (Some (match page_items with
           | Ret l => Ret (data ++ l)%list
           | Raise e => Raise e
           end),
     after_send w (get_request url headers params)).
Proof.
  intros r Hst Hbody Hiter Hstop.
  assert (Hcond : truthy (next_link r) && (all && bool_decide (top = None)) = false).
  { apply andb_false_iff. destruct Hstop as [H|H]; [by left|right].
    apply not_true_is_false. by rewrite fetch_all_test. }
  rewrite page_loop_unfold.
  unfold page_step, bind at 1, send. cbn. fold (get_request url headers params).
  fold r. rewrite Hst. cbn. unfold next_link in Hcond.
  unfold bind, lift, json, py_get, ret. rewrite Hbody in *. cbn.
  rewrite Hiter. destruct page_items as [l|e]; cbn; [|done].
  by rewrite Hcond.
Qed.

(** X8. [get_device] with a [device_id]: when the server answers 200
    with a JSON object that has no [value] member (the device itself),
    the call returns that object; when the object has a [value] array,
    the call returns the first element of the array and raises
    [IndexError] on an empty one.  (The loop does not go on: no link
    in the answer, or the call not in fetch-all mode.) *)
Theorem get_device_by_id (E : env) (fuel : nat) (device_id : option string)
    (q : query) (w w1 : world) (token : value)
    (items : list (string * value)) :
  given device_id -> compatible device_id q ->
  get_token E w = (Ret token, w1) ->
  let request := get_request (device_url E device_id) (odata_headers E token q)
                   (odata_params q) in
  let r := server E (sent w1) request in
  status_code r = 200 -> body r = Some (VDict items) ->
  truthy (next_link r) = false \/ ~ fetch_all (all q) (top q) ->
  (items_get "value" items = None ->
     get_device E (S fuel) device_id q w
     = (Some (Ret (VDict items)), after_send w1 request))
  /\ (forall vs, items_get "value" items = Some (VList vs) ->
        get_device E (S fuel) device_id q w
        = (Some (list_getitem vs 0), after_send w1 request))
  /\ (items_get "value" items = Some (VList []) ->
        get_device E (S fuel) device_id q w
        = (Some (Raise IndexError), after_send w1 request)).
Proof.
  intros Hid Hok Htoken request r Hst Hbody Hstop.
  apply str_truthy_given in Hid.
  assert (Hvs : forall vs, items_get "value" items = Some (VList vs) ->
            get_device E (S fuel) device_id q w
            = (Some (list_getitem vs 0), after_send w1 request)).
  { intros vs Hvalue. rewrite (get_device_loop E _ _ _ _ _ _ Hok Htoken).
    rewrite (page_loop_last_page E _ _ _ _ _ _ [] w1 fuel items (Ret vs)
               Hst Hbody); [|by rewrite Hvalue|done].
    cbn. by rewrite Hid. }
  split; [|split; [exact Hvs|]].
  - intros Hvalue. rewrite (get_device_loop E _ _ _ _ _ _ Hok Htoken).
    rewrite (page_loop_last_page E _ _ _ _ _ _ [] w1 fuel items
               (Ret [VDict items]) Hst Hbody); [|by rewrite Hvalue|done].
    cbn. by rewrite Hid.
  - intros Hvalue. by rewrite (Hvs [] Hvalue).
Qed.

Lemma get_device_by_id_witness :
  (get_device (Example.constant Example_device.one_device) 1 (Some "device-1")
     Example_device.by_id (Example.logged_in 5000)).1
  = Some (Ret (VDict [("id", VStr "device-1"); ("displayName", VStr "a")])).
Proof.
  destruct (get_device_by_id (Example.constant Example_device.one_device) 0
              (Some "device-1") Example_device.by_id (Example.logged_in 5000)
              (after_clock (Example.logged_in 5000)) (VStr "tok-0")
              [("id", VStr "device-1"); ("displayName", VStr "a")])
    as (H & _).
  - exists "device-1". split; [reflexivity | discriminate].
  - intros [_ [(s & H & _)|(s & H & _)]]; discriminate H.
  - reflexivity.
  - reflexivity.
  - reflexivity.
  - left. reflexivity.
  - by rewrite H.
Defined.

(** X9. A 200 answer without a [value] member: [list_owned_devices]
    raises [TypeError] (it extends its list with [None]), while
    [get_device] without a [device_id] returns the answer itself as the
    only element of its list. *)
Theorem answer_without_value_member (E : env) (fuel : nat) (q : query)
    (w w1 : world) (token : value) (r : response)
    (items : list (string * value)) :
  get_token E w = (Ret token, w1) ->
  (forall request, server E (sent w1) request = r) ->
  status_code r = 200 -> body r = Some (VDict items) ->
  items_get "value" items = None ->
  truthy (next_link r) = false \/ ~ fetch_all (all q) (top q) ->
  (forall user_id,
     (list_owned_devices E (S fuel) user_id q w).1 = Some (Raise TypeError))
  /\ (forall device_id, ~ given device_id ->
        (get_device E (S fuel) device_id q w).1
        = Some (Ret (VList [VDict items]))).
Proof.
  intros Htoken Hserver Hst Hbody Hvalue Hstop. split.
  - intros user_id. rewrite (list_owned_devices_loop E _ _ _ _ _ _ Htoken).
    rewrite (page_loop_last_page E _ _ _ _ _ _ [] w1 fuel items (Raise TypeError));
      rewrite ?Hserver; try done.
    by rewrite Hvalue.
  - intros device_id Hid.
    rewrite (get_device_list_loop E _ _ _ _ _ _ Hid Htoken).
    rewrite (page_loop_last_page E _ _ _ _ _ _ [] w1 fuel items
               (Ret [VDict items]));
      rewrite ?Hserver; try done.
    by rewrite Hvalue.
Qed.

Lemma answer_without_value_member_witness :
  (list_owned_devices (Example.constant Example_device.one_device) 1 "user-1"
     Example_device.by_id (Example.logged_in 5000)).1
  = Some (Raise TypeError).
Proof.
  destruct (answer_without_value_member
              (Example.constant Example_device.one_device) 0
              Example_device.by_id (Example.logged_in 5000)
              (after_clock (Example.logged_in 5000)) (VStr "tok-0")
              Example_device.one_device
              [("id", VStr "device-1"); ("displayName", VStr "a")]
              eq_refl (fun _ => eq_refl) eq_refl eq_refl eq_refl
              (or_introl eq_refl))
    as [H _].
  exact (H "user-1").
Defined.

(** X10. Without a token there is no Graph request: when [get_token]
    raises, each of the four device functions raises the same
    exception, in the world [get_token] left. *)
Theorem token_failure_stops_call (E : env) (w w1 : world) (e : exn) :
  get_token E w = (Raise e, w1) ->
  (forall fuel user_id q,
     list_owned_devices E fuel user_id q w = (Some (Raise e), w1))
  /\ (forall fuel device_id q, compatible device_id q ->
        get_device E fuel device_id q w = (Some (Raise e), w1))
  /\ (forall device_id, delete_device E device_id w = (Raise e, w1))
  /\ (forall device_id, get_laps_password E device_id w = (Raise e, w1)).
Proof.
  intros Htoken. split; [|split; [|split]].
  - intros fuel user_id q. unfold list_owned_devices. by rewrite Htoken.
  - intros fuel device_id q Hok. unfold compatible in Hok. unfold get_device.
    rewrite <- !str_truthy_given, <- orb_true_iff, <- andb_true_iff in Hok.
    apply not_true_is_false in Hok. by rewrite Hok, Htoken.
  - intros device_id. unfold delete_device, bind. by rewrite Htoken.
  - intros device_id. unfold get_laps_password, bind. by rewrite Htoken.
Qed.

Lemma token_failure_stops_call_witness :
  delete_device (Example.constant (Response 401 "Unauthorized" None None))
    "device-1" Example.start
  = (Raise JSONDecodeError,
     after_send Example.start
       (token_request (Example.constant (Response 401 "Unauthorized" None None)))).
Proof.
  destruct (token_failure_stops_call
              (Example.constant (Response 401 "Unauthorized" None None))
              Example.start
              (after_send Example.start
                 (token_request
                    (Example.constant (Response 401 "Unauthorized" None None))))
              JSONDecodeError eq_refl) as (_ & _ & H & _).
  exact (H "device-1").
Defined.

(** X11. [delete_device], once it has its token, sends one DELETE and
    returns [True] exactly when the answer is 204; on any other
    status, 200 included, it raises. *)
Theorem delete_device_true_iff_204 (E : env) (device_id : string)
    (w w1 : world) (token : value) :
  get_token E w = (Ret token, w1) ->
  let request := delete_request E token device_id in
  let r := server E (sent w1) request in
  ((delete_device E device_id w).1 = Ret (VBool true) <-> status_code r = 204)
  /\ (status_code r = 204 ->
        delete_device E device_id w = (Ret (VBool true), after_send w1 request))
  /\ (status_code r <> 204 ->
        exists e, delete_device E device_id w = (Raise e, after_send w1 request)).
Proof.
  intros Htoken request r.
  assert (Hrun : delete_device E device_id w
            = (if negb (status_code r =? 204)
               then raise_request_failed E r else ret (VBool true))
                (after_send w1 request)).
  { unfold delete_device, bind at 1. rewrite Htoken.
    unfold bind at 1, send. fold (delete_request E token device_id).
    reflexivity. }
  assert (Hok : status_code r = 204 ->
            delete_device E device_id w = (Ret (VBool true), after_send w1 request)).
  { intros Hst. rewrite Hrun, Hst. reflexivity. }
  assert (Hfail : status_code r <> 204 ->
            exists e, delete_device E device_id w = (Raise e, after_send w1 request)).
  { intros Hst. rewrite Hrun. apply Z.eqb_neq in Hst. rewrite Hst. cbn.
    apply raise_request_failed_raises. }
  split; [|split; [exact Hok|exact Hfail]].
  split.
  - intros Hret. destruct (Z.eq_dec (status_code r) 204) as [Heq|Hne]; [done|].
    destruct (Hfail Hne) as [e He]. rewrite He in Hret. done.
  - intros Hst. by rewrite (Hok Hst).
Qed.

Lemma delete_device_true_iff_204_witness :
  exists e,
    delete_device (Example.constant Example_device.one_device) "device-1"
      (Example.logged_in 5000)
    = (Raise e,
       after_send (after_clock (Example.logged_in 5000))
         (delete_request (Example.constant Example_device.one_device)
            (VStr "tok-0") "device-1")).
Proof.
  destruct (delete_device_true_iff_204
              (Example.constant Example_device.one_device) "device-1"
              (Example.logged_in 5000) (after_clock (Example.logged_in 5000))
              (VStr "tok-0") eq_refl) as (_ & _ & H).
  apply H. discriminate.
Defined.

(** X12. [get_laps_password] on a 200 JSON answer that does not have
    the expected shape raises instead of returning [None]: [KeyError]
    without a [credentials] member, [IndexError] on an empty
    [credentials] array, [TypeError] when [passwordBase64] is null. *)
Theorem laps_password_unexpected_shape (E : env) (device_id : string)
    (w w1 : world) (token : value) (items : list (string * value)) :
  get_token E w = (Ret token, w1) ->
  let request := laps_request E token device_id in
  let r := server E (sent w1) request in
  status_code r = 200 -> indicates_json r = true ->
  body r = Some (VDict items) ->
  (items_get "credentials" items = None ->
     get_laps_password E device_id w
     = (Raise (KeyError "credentials"), after_send w1 request))
  /\ (items_get "credentials" items = Some (VList []) ->
        get_laps_password E device_id w
        = (Raise IndexError, after_send w1 request))
  /\ (forall entry rest,
        items_get "credentials" items = Some (VList (VDict entry :: rest)) ->
        items_get "passwordBase64" entry = Some VNone ->
        get_laps_password E device_id w
        = (Raise TypeError, after_send w1 request)).
Proof.
  intros Htoken request r Hst Hjson Hbody.
  assert (Hrun : get_laps_password E device_id w
    = (js <~ lift (json r) ;;
       data <~ lift (py_getitem js "credentials") ;;
       first <~ lift (first_item data) ;;
       encoded_pwd <~ lift (py_get first "passwordBase64" (VStr EmptyString)) ;;
       bytes <~ lift (b64decode encoded_pwd) ;;
       decoded_pwd <~ lift (utf8_decode bytes) ;;
       ret (VStr decoded_pwd)) (after_send w1 request)).
  { unfold get_laps_password, bind at 1. rewrite Htoken.
    unfold bind at 1, send. fold (laps_request E token device_id).
    fold request. fold r. rewrite Hst.
    change (negb (200 =? 200)) with false. cbv iota.
    fold (indicates_json r). by rewrite Hjson. }
  rewrite Hrun. unfold bind, lift, json, ret, py_getitem, py_get.
  rewrite Hbody. cbn.
  split; [|split].
  - by intros ->.
  - by intros ->.
  - intros entry rest -> Hpwd. cbn. by rewrite Hpwd.
Qed.

Lemma laps_password_unexpected_shape_witness :
  (get_laps_password (Example.constant Example_edges.no_credentials) "device-1"
     (Example.logged_in 5000)).1 = Raise IndexError.
Proof.
  destruct (laps_password_unexpected_shape
              (Example.constant Example_edges.no_credentials) "device-1"
              (Example.logged_in 5000) (after_clock (Example.logged_in 5000))
              (VStr "tok-0")
              [("id", VStr "device-1"); ("credentials", VList [])]
              eq_refl eq_refl eq_refl eq_refl) as (_ & H & _).
  by rewrite (H eq_refl).
Defined.

(** X13. [ensure_list]: a single name passed as a string and the same
    name passed as a one-element list build the same request, for
    [select] and for [orderby], provided the name is not empty.  The
    empty name is the exception: [select=""] is left out, while
    [select=[""]] is sent as an empty [$select]. *)
Theorem string_or_singleton_list (E : env) (token : value)
    (sel ob : option str_or_list) (f se : option string) (t : option Z)
    (a : bool) (s : string) :
  (s <> EmptyString ->
     odata_params (Query (Some (Str s)) f se ob t a)
     = odata_params (Query (Some (Strs [s])) f se ob t a)
     /\ odata_params (Query sel f se (Some (Str s)) t a)
        = odata_params (Query sel f se (Some (Strs [s])) t a)
     /\ odata_headers E token (Query sel f se (Some (Str s)) t a)
        = odata_headers E token (Query sel f se (Some (Strs [s])) t a))
  /\ emitted (odata_params (Query (Some (Str EmptyString)) f se ob t a)) "$select"
     = None
  /\ emitted (odata_params (Query (Some (Strs [EmptyString])) f se ob t a))
       "$select"
     = Some (VStr EmptyString).
Proof.
  split; [|split].
  - intros Hs. apply String.eqb_neq in Hs.
    unfold odata_params, odata_headers, advanced, joined. cbn.
    by rewrite Hs.
  - unfold emitted, odata_params. by simplify_map_eq.
  - unfold emitted, odata_params. by simplify_map_eq.
Qed.

Lemma string_or_singleton_list_witness :
  odata_params (Query (Some (Str "id")) None None None None false)
  = odata_params (Query (Some (Strs ["id"])) None None None None false).
Proof.
  destruct (string_or_singleton_list (Example.constant Example.token_response)
              VNone None None None None None false "id") as [H _].
  apply H. discriminate.
Defined.

(** ** The cache during Graph calls *)

Lemma raise_request_failed_world (E : env) (A : Type) (r : response) (w : world) :
  (@raise_request_failed E A r w).2 = w.
Proof.
  destruct (raise_request_failed_raises E A r w) as [e ->]. done.
Qed.

(** X15. The Graph calls leave the token cache alone: once
    [get_token] has returned, the cache after [list_owned_devices],
    [get_device], [delete_device] or [get_laps_password] is the cache
    [get_token] left, whatever the Graph server answers; a rejected
    token stays cached. *)
Theorem graph_calls_keep_cache (E : env) (w w1 : world) (token : value) :
  get_token E w = (Ret token, w1) ->
  (forall fuel user_id q,
     _token_cache (list_owned_devices E fuel user_id q w).2 = _token_cache w1)
  /\ (forall fuel device_id q, compatible device_id q ->
        _token_cache (get_device E fuel device_id q w).2 = _token_cache w1)
  /\ (forall device_id,
        _token_cache (delete_device E device_id w).2 = _token_cache w1)
  /\ (forall device_id,
        _token_cache (get_laps_password E device_id w).2 = _token_cache w1).
Proof.
  intros Htoken. split; [|split; [|split]].
  - intros fuel user_id q.
    rewrite (list_owned_devices_loop E _ _ _ _ _ _ Htoken), as_list_world.
    apply page_loop_cache.
  - intros fuel device_id q Hok.
    rewrite (get_device_loop E _ _ _ _ _ _ Hok Htoken), as_device_world.
    apply page_loop_cache.
  - intros device_id. unfold delete_device, bind at 1. rewrite Htoken.
    unfold bind at 1, send.
    destruct (negb _); [by rewrite raise_request_failed_world|done].
  - intros device_id. unfold get_laps_password, bind at 1. rewrite Htoken.
    unfold bind at 1, send.
    destruct (negb (status_code _ =? 200));
      [by rewrite raise_request_failed_world|].
    destruct (negb (str_contains _ _)); [done|].
    unfold bind, lift, ret.
    repeat (case_match; simplify_eq/=; try done).
Qed.

Lemma graph_calls_keep_cache_witness :
  _token_cache
    (delete_device (Example.constant (Response 401 "Unauthorized" None None))
       "device-1" (Example.logged_in 5000)).2
  = _token_cache (Example.logged_in 5000).
Proof.
  destruct (graph_calls_keep_cache
              (Example.constant (Response 401 "Unauthorized" None None))
              (Example.logged_in 5000) (after_clock (Example.logged_in 5000))
              (VStr "tok-0") eq_refl) as (_ & _ & H & _).
  exact (H "device-1").
Defined.
